(** * A shallow embedding of the go-teamcity REST client

    The client is glue code: every exported operation is a short sequence of
    HTTP round trips with light post-processing.  The embedding keeps that
    shape.  The remote server and the JSON codec are parameters (type
    classes); a service call is a function from the state of the remote
    world to an outcome, the list of requests it sent, and the new state of
    the world.  A Go result pair of a pointer and an error is a pair of
    options, so that the pair of two [nil]s can be told from an error; a
    panic (a [nil] pointer dereferenced) is an outcome of its own.

    Source files embedded here:
    - the REST helper ([restHelper], its [get], [post], [put], [delete] ...),
    - the project service ([NewProject], [Create], [Get], [Update],
      [updateProject]) in its current and in its earlier revision,
    - the agent pool service,
    - the Slack connection project feature,
    - the golang build feature.

    Layout: the data model and the operations; the vocabulary of the
    statements; concrete servers and codecs to run the client on; the
    properties, each with the claim it settles; the properties at work on
    the concrete servers. *)

From Stdlib Require Import ZArith Ascii String List Lia.
From stdpp Require Import base option strings gmap list pretty.

Open Scope string_scope.
Open Scope list_scope.
Open Scope Z_scope.

(* ===================================================================== *)
(** * Go values: errors and results *)
(* ===================================================================== *)

(** The dynamic kinds of [error] values that flow through the client. *)
Inductive error : Type :=
| TransportError (msg : string)   (* returned by [httpClient.Do] *)
| ReadError (msg : string)        (* returned while reading a response body *)
| DecodeError (msg : string)      (* returned by [encoding/json] decoding *)
| EncodeError (msg : string)      (* returned by [json.Marshal] *)
| Errorf (msg : string).          (* built with [fmt.Errorf] *)

(** A call [err := f(..., &out, ...)]: [Ok v] is a [nil] error with [v]
    stored through [out]; [Err e] is the error [e]. *)
Inductive result (A : Type) : Type :=
| Ok (a : A)
| Err (e : error).
Arguments Ok {A} a.
Arguments Err {A} e.

Definition is_Ok {A} (r : result A) : bool :=
  match r with Ok _ => true | Err _ => false end.

Definition error_of {A} (r : result A) : option error :=
  match r with Ok _ => None | Err e => Some e end.

(* ===================================================================== *)
(** * The data model *)
(* ===================================================================== *)

Module Property.
  (** Modelled from the spec: [Property] is declared outside the embedded
      sources.  "Ordered key-value collections": a property is a key and a
      value. *)
Record t : Type := mk { Name : string; Value : string }.
End Property.

(** Modelled from the spec: [NewProperty] is declared outside the embedded
    sources; it pairs a key with a value. *)
Definition NewProperty (name value : string) : Property.t :=
  {| Property.Name := name; Property.Value := value |}.

Module Properties.
  (** Modelled from the spec: [Properties] and its methods are declared
      outside the embedded sources.  "Ordered key-value collections ... used
      to serialize feature/setting payloads": a counted, ordered list of
      properties. *)
Record t : Type := mk { Count : Z; Href : string; Items : list Property.t }.

  (** [AddOrReplaceValue] is declared outside the embedded sources and the
      specification does not describe it: what it makes of a collection is
      a parameter.  In the sources it is called on a pointer and updates
      the collection behind it; here it returns the updated collection,
      and the caller stores it. *)
Class Updater : Type :=
    AddOrReplaceValue : t -> string -> string -> t.



End Properties.

(** Modelled from the spec: [NewProperties] is declared outside the embedded
    sources; it builds the ordered collection of the given properties. *)
Definition NewProperties (items : list Property.t) : Properties.t :=
  {| Properties.Count := Z.of_nat (length items);
     Properties.Href := "";
     Properties.Items := items |}.


Module Param.
  (** Modelled from the spec: the Go type of one parameter is declared
      outside the embedded sources (it is [Param] here, its Go name being a
      reserved word).  A key-value pair that the server marks as inherited
      from a parent project or not. *)
Record t : Type := mk { Name : string; Value : string; Inherited : bool }.
End Param.

Module Parameters.
  (** Modelled from the spec: [Parameters] is declared outside the embedded
      sources; only its [Count] field is read by them. *)
Record t : Type := mk { Count : Z; Href : string; Items : list Param.t }.

  (** Modelled from the spec: [NonInherited] is declared outside the
      embedded sources.  "Strips inherited parameters from the result": the
      collection of the parameters that are not inherited, in order. *)
Definition NonInherited (p : t) : t :=
    let kept := List.filter (fun v => negb (Param.Inherited v)) (Items p) in
    {| Count := Z.of_nat (length kept); Href := ""; Items := kept |}.
End Parameters.

(** Modelled from the spec: [NewParametersEmpty] is declared outside the
    embedded sources; the empty collection. *)
Definition NewParametersEmpty : Parameters.t :=
  {| Parameters.Count := 0; Parameters.Href := ""; Parameters.Items := [] |}.

Module ProjectReference.
Record t : Type := mk {
    ID : string;
    Name : string;
    Description : string;
    Href : string;
    WebURL : string
  }.
End ProjectReference.

Module Project.
  (** [BuildTypeReferences] is declared outside the embedded sources and no
      embedded operation reads it: it is the type parameter [B]. *)
Record t (B : Type) : Type := mk {
    Archived : option bool;
    Description : string;
    Href : string;
    ID : string;
    Name : string;
    Parameters : option Parameters.t;
    ParentProject : option ProjectReference.t;
    ParentProjectID : string;
    WebURL : string;
    BuildTypes : B;
    UUID : string
  }.
Arguments mk {B}.
Arguments Archived {B}.
Arguments Description {B}.
Arguments Href {B}.
Arguments ID {B}.
Arguments Name {B}.
Arguments Parameters {B}.
Arguments ParentProject {B}.
Arguments ParentProjectID {B}.
Arguments WebURL {B}.
Arguments BuildTypes {B}.
Arguments UUID {B}.

  (** [p.ID = v] *)
Definition set_ID {B} (v : string) (p : t B) : t B :=
    mk (Archived p) (Description p) (Href p) v (Name p) (Parameters p)
       (ParentProject p) (ParentProjectID p) (WebURL p) (BuildTypes p) (UUID p).

  (** [p.Parameters = v] *)
Definition set_Parameters {B} (v : option Parameters.t) (p : t B) : t B :=
    mk (Archived p) (Description p) (Href p) (ID p) (Name p) v
       (ParentProject p) (ParentProjectID p) (WebURL p) (BuildTypes p) (UUID p).

  (** [p.ParentProjectID = id; p.ParentProject = r] *)
Definition set_Parent {B} (id : string) (r : option ProjectReference.t)
             (p : t B) : t B :=
    mk (Archived p) (Description p) (Href p) (ID p) (Name p) (Parameters p)
       r id (WebURL p) (BuildTypes p) (UUID p).
End Project.

Module AgentPool.
Record t : Type := mk {
    Href : string;
    Id : Z;
    Name : string;
    MaxAgents : option Z
  }.
End AgentPool.

Module AgentPoolReference.
Record t : Type := mk { Href : string; Id : Z; Name : string }.
End AgentPoolReference.

Module ListAgentPools.
Record t : Type := mk {
    Count : Z;
    Href : string;
    AgentPools : list AgentPoolReference.t
  }.
End ListAgentPools.

(* ===================================================================== *)
(** * Locators *)
(* ===================================================================== *)

(** Modelled from the spec: the locator type and its constructors are
    declared outside the embedded sources.  "Pure formatting: given an
    identifying field (numeric ID, string ID, name, or UUID), produce the
    path-segment string the remote API expects (e.g., id:<value>,
    name:<value>).  No validation beyond presence." *)
Module Locator.
Definition t : Type := string.
Definition String (l : t) : string := l.
End Locator.

Definition LocatorID (id : string) : Locator.t := "id:" +:+ id.
Definition LocatorIDInt (id : Z) : Locator.t := "id:" +:+ pretty id.
Definition LocatorName (name : string) : Locator.t := "name:" +:+ name.
Definition LocatorUUID (uuid : string) : Locator.t := "uuid:" +:+ uuid.

(* ===================================================================== *)
(** * HTTP *)
(* ===================================================================== *)

Inductive Method : Type := GET | POST | PUT | DELETE.

Definition Method_eqb (a b : Method) : bool :=
  match a, b with
  | GET, GET | POST, POST | PUT, PUT | DELETE, DELETE => true
  | _, _ => false
  end.

(** The value handed to the request builder as the body. *)
Inductive Payload (B : Type) : Type :=
| NoBody
| JSONProject (p : Project.t B)
| JSONProjectReference (r : option ProjectReference.t)
| JSONParameters (ps : option Parameters.t)
| JSONAgentPool (a : AgentPool.t)
| TextPlain (s : string).
Arguments NoBody {B}.
Arguments JSONProject {B} p.
Arguments JSONProjectReference {B} r.
Arguments JSONParameters {B} ps.
Arguments JSONAgentPool {B} a.
Arguments TextPlain {B} s.

(** The request builder ([sling]): a base URL, extended by [Path] under the
    assumption stated at [slingRequest]. *)
Record Sling : Type := { rawURL : string }.

Definition Sling_Path (s : Sling) (path : string) : Sling :=
  {| rawURL := rawURL s +:+ path |}.

Record Request (B : Type) : Type := {
  Verb : Method;
  URL : string;
  Query : list (string * string);
  Header : list (string * string);
  Body : Payload B
}.
Arguments Verb {B}.
Arguments URL {B}.
Arguments Query {B}.
Arguments Header {B}.
Arguments Body {B}.

(** A response body is a stream, recorded as [io.ReadAll] sees it: the
    whole content, or the error that ends the read (what the stream
    delivered before the error is not recorded). *)
Inductive ReadCloser : Type :=
| Bytes (data : string)
| Broken (e : error).

Record Response : Type := { StatusCode : Z; RespBody : ReadCloser }.

(** [io.ReadAll] *)
Definition ReadAll (b : ReadCloser) : result string :=
  match b with
  | Bytes data => Ok data
  | Broken e => Err e
  end.

(** The remote world: [Do] sends one request and receives a response or a
    transport error; the world moves on. *)
Class HTTPClient (B W : Type) : Type :=
  Do : Request B -> W -> result Response * W.

(** [encoding/json] is outside the repository: decoding a value of type [T]
    is a parameter, in the two forms the sources use.  [unmarshal] is
    [json.Unmarshal] on the bytes of a whole text; [inr msg] is a decode
    failure.  [decode] is [json.NewDecoder(body).Decode]: it reads one value
    from the stream.  Nothing ties [decode] to [unmarshal] of the content
    of the stream: the two differ on an empty body and on data after the
    first value, and a decoder can return a value from a stream that breaks
    further on. *)
Class Unmarshal (T : Type) : Type := {
  unmarshal : string -> T + string;
  decode : ReadCloser -> result T
}.

(** [json.Unmarshal(data, &out)] *)
Definition json_Unmarshal {T} `{Unmarshal T} (data : string) : result T :=
  match unmarshal data with
  | inl v => Ok v
  | inr msg => Err (DecodeError msg)
  end.

(** [json.NewDecoder(body).Decode(&out)] *)
Definition json_Decode {T} `{Unmarshal T} (body : ReadCloser) : result T :=
  decode body.

(* ===================================================================== *)
(** * The client monad *)
(* ===================================================================== *)

(** One run of a client operation from a state of the world: what it
    returned ([None] when it panicked), the requests it sent in order, and
    the state of the world afterwards. *)
Record Run (B W A : Type) : Type := {
  outcome : option A;
  sent : list (Request B);
  world : W
}.
Arguments outcome {B W A}.
Arguments sent {B W A}.
Arguments world {B W A}.

Definition Client (B W A : Type) : Type := W -> Run B W A.

Definition ret {B W A} (a : A) : Client B W A :=
  fun w => {| outcome := Some a; sent := []; world := w |}.

Definition panic {B W A} : Client B W A :=
  fun w => {| outcome := None; sent := []; world := w |}.

Definition bind {B W A C} (m : Client B W A) (k : A -> Client B W C)
  : Client B W C :=
  fun w =>
    let r := m w in
    match outcome r with
    | None => {| outcome := None; sent := sent r; world := world r |}
    | Some a =>
        let r' := k a (world r) in
        {| outcome := outcome r'; sent := sent r ++ sent r'; world := world r' |}
    end.

Declare Scope client_scope.
Delimit Scope client_scope with client.
Notation "x <- m ;; k" := (bind m (fun x => k))
  (at level 100, m at next level, right associativity) : client_scope.
Open Scope client_scope.

(** [httpClient.Do(request)] *)
Definition httpDo {B W} `{HTTPClient B W} (request : Request B)
  : Client B W (result Response) :=
  fun w =>
    let (r, w') := Do request w in
    {| outcome := Some r; sent := [request]; world := w' |}.

(** The write requests among those sent. *)
Definition is_write {B} (r : Request B) : bool :=
  negb (Method_eqb (Verb r) GET).

Definition writes {B} (l : list (Request B)) : list (Request B) :=
  List.filter is_write l.

(* ===================================================================== *)
(** * The REST helper *)
(* ===================================================================== *)

(** [fmt.Sprintf("%d", n)] *)
Definition Sprintf_d (n : Z) : string := pretty n.

(** The request that [sling.New().<Verb>(path) ... .Request()] builds.  The
    library is outside the repository; two assumptions on it are built into
    this definition, and every statement about a request rests on them.
    - [Request()] succeeds.  It fails when the URL of the sling does not
      parse or the body cannot be encoded; [putTextPlain] then returns the
      error without sending anything, and the other helpers, which drop
      the error, hand a [nil] request to [Do].  Such runs are not
      modelled.
    - The URL is the base followed by the path.  The library resolves the
      path as a URL reference against the base, which gives this for a
      base that ends in a slash and a relative path that resolution leaves
      as it is; other bases and paths are not modelled. *)
Definition slingRequest {B} (s : Sling) (verb : Method) (path : string)
           (query header : list (string * string)) (body : Payload B)
  : Request B :=
  {| Verb := verb; URL := rawURL s +:+ path; Query := query;
     Header := header; Body := body |}.

(** Headers set by [BodyJSON] and by [textPlainBodyProvider]. *)
Definition jsonHeader : list (string * string) :=
  [("Content-Type", "application/json")].

Definition textPlainHeader : list (string * string) :=
  [("Content-Type", "text/plain; charset=utf-8"); ("Accept", "text/plain")].

(** [getFields] with its [url:"fields,omitempty"] tag. *)
Record getFields : Type := { Fields : string }.

Definition QueryStruct (f : getFields) : list (string * string) :=
  if String.eqb (Fields f) "" then [] else [("fields", Fields f)].

Module restHelper.

Record t : Type := mk { sling : Sling }.

Definition handleRestError (dt : string) (status : Z) (op res : string)
  : error :=
  Errorf ("Error '" +:+ Sprintf_d status +:+ "' when performing '" +:+ op
          +:+ "' operation - " +:+ res +:+ ": " +:+ dt).

Section Operations.
Context {B W : Type} `{HTTPClient B W}.

Definition getCustom {T} (r : t) (path resourceDescription : string)
           (reader : string -> result T) : Client B W (result T) :=
  response <- httpDo (slingRequest (sling r) GET path [] [] NoBody);;
  match response with
  | Err err => ret (Err err)
  | Ok response =>
      match ReadAll (RespBody response) with
      | Err err => ret (Err err)
      | Ok bodyBytes =>
          if StatusCode response =? 200
          then match reader bodyBytes with
               | Err err => ret (Err err)
               | Ok out => ret (Ok out)
               end
          else ret (Err (handleRestError bodyBytes (StatusCode response)
                                         "GET" resourceDescription))
      end
  end.

Definition getWithFields {T} `{Unmarshal T} (r : t) (path : string)
           (fields : getFields) (resourceDescription : string)
  : Client B W (result T) :=
  response <- httpDo (slingRequest (sling r) GET path (QueryStruct fields)
                                   [] NoBody);;
  match response with
  | Err err => ret (Err err)
  | Ok response =>
      if StatusCode response =? 200
      then ret (json_Decode (RespBody response))
      else match ReadAll (RespBody response) with
           | Err err => ret (Err err)
           | Ok dt => ret (Err (handleRestError dt (StatusCode response)
                                                "GET" resourceDescription))
           end
  end.

Definition get {T} `{Unmarshal T} (r : t) (path resourceDescription : string)
  : Client B W (result T) :=
  getWithFields r path {| Fields := "" |} resourceDescription.

Definition putCustom {T} (r : t) (path : string) (data : Payload B)
           (resourceDescription : string) (reader : string -> result T)
  : Client B W (result T) :=
  response <- httpDo (slingRequest (sling r) PUT path [] jsonHeader data);;
  match response with
  | Err err => ret (Err err)
  | Ok response =>
      match ReadAll (RespBody response) with
      | Err err => ret (Err err)
      | Ok bodyBytes =>
          if (StatusCode response =? 201) || (StatusCode response =? 200)
          then match reader bodyBytes with
               | Err err => ret (Err err)
               | Ok out => ret (Ok out)
               end
          else ret (Err (handleRestError bodyBytes (StatusCode response)
                                         "PUT" resourceDescription))
      end
  end.

Definition postCustom {T} (r : t) (path : string) (data : Payload B)
           (resourceDescription : string) (reader : string -> result T)
  : Client B W (result T) :=
  response <- httpDo (slingRequest (sling r) POST path [] jsonHeader data);;
  match response with
  | Err err => ret (Err err)
  | Ok response =>
      match ReadAll (RespBody response) with
      | Err err => ret (Err err)
      | Ok bodyBytes =>
          if (StatusCode response =? 201) || (StatusCode response =? 200)
          then match reader bodyBytes with
               | Err err => ret (Err err)
               | Ok out => ret (Ok out)
               end
          else ret (Err (handleRestError bodyBytes (StatusCode response)
                                         "POST" resourceDescription))
      end
  end.

(** Returns the pair [(string, error)] of the source.  The early return
    of the source on an error of [Request()] is not taken here: the
    builder is assumed to succeed (see [slingRequest]). *)
Definition putTextPlain (r : t) (path data resourceDescription : string)
  : Client B W (string * option error) :=
  resp <- httpDo (slingRequest (sling r) PUT path [] textPlainHeader
                               (TextPlain data));;
  match resp with
  | Err err => ret ("", Some err)
  | Ok resp =>
      match ReadAll (RespBody resp) with
      | Err err => ret ("", Some err)
      | Ok bodyBytes =>
          if (StatusCode resp =? 201) || (StatusCode resp =? 200)
          then ret (bodyBytes, None)
          else ret ("", Some (handleRestError bodyBytes (StatusCode resp)
                                              "PUT" resourceDescription))
      end
  end.

Definition post {T} `{Unmarshal T} (r : t) (path : string) (data : Payload B)
           (resourceDescription : string) : Client B W (result T) :=
  response <- httpDo (slingRequest (sling r) POST path [] jsonHeader data);;
  match response with
  | Err err => ret (Err err)
  | Ok response =>
      if (StatusCode response =? 201) || (StatusCode response =? 200)
      then ret (json_Decode (RespBody response))
      else match ReadAll (RespBody response) with
           | Err err => ret (Err err)
           | Ok dt => ret (Err (handleRestError dt (StatusCode response)
                                                "POST" resourceDescription))
           end
  end.

Definition put {T} `{Unmarshal T} (r : t) (path : string) (data : Payload B)
           (resourceDescription : string) : Client B W (result T) :=
  response <- httpDo (slingRequest (sling r) PUT path [] jsonHeader data);;
  match response with
  | Err err => ret (Err err)
  | Ok response =>
      if (StatusCode response =? 201) || (StatusCode response =? 200)
      then ret (json_Decode (RespBody response))
      else match ReadAll (RespBody response) with
           | Err err => ret (Err err)
           | Ok dt => ret (Err (handleRestError dt (StatusCode response)
                                                "PUT" resourceDescription))
           end
  end.

(** Returns the [error] of the source: [None] is [nil]. *)
Definition deleteByIDWithSling (r : t) (sling : Sling)
           (resourceID resourceDescription : string)
  : Client B W (option error) :=
  response <- httpDo (slingRequest sling DELETE resourceID [] [] NoBody);;
  match response with
  | Err err => ret (Some err)
  | Ok response =>
      if StatusCode response =? 204 then ret None
      else if negb (StatusCode response =? 200)
              && negb (StatusCode response =? 204)
      then match ReadAll (RespBody response) with
           | Err err => ret (Some err)
           | Ok dt => ret (Some (handleRestError dt (StatusCode response)
                                                 "DELETE" resourceDescription))
           end
      else ret None
  end.

Definition delete (r : t) (path resourceDescription : string)
  : Client B W (option error) :=
  deleteByIDWithSling r (sling r) path resourceDescription.

End Operations.
End restHelper.

Definition newRestHelper (s : Sling) : restHelper.t :=
  {| restHelper.sling := s |}.

(** [newRestHelperWithSling] is declared outside the embedded sources; the
    agent pool service builds its helper with it from the same two
    arguments. *)
Definition newRestHelperWithSling (s : Sling) : restHelper.t :=
  {| restHelper.sling := s |}.

(* ===================================================================== *)
(** * The project service *)
(* ===================================================================== *)

(** The zero value of a Go type, left in the fields a composite literal
    does not name. *)
Class ZeroValue (T : Type) : Type := zeroValue : T.

(** [NewProject]: the pair of a project pointer and an error of the source. *)
Definition NewProject {B} `{ZeroValue B}
           (name description parentProjectID : string)
  : option (Project.t B) * option error :=
  if String.eqb name "" then (None, Some (Errorf "name is required"))
  else
    let parent :=
      if negb (String.eqb parentProjectID "")
      then Some {| ProjectReference.ID := parentProjectID;
                   ProjectReference.Name := "";
                   ProjectReference.Description := "";
                   ProjectReference.Href := "";
                   ProjectReference.WebURL := "" |}
      else None in
    (Some {| Project.Archived := None;
             Project.Description := description;
             Project.Href := "";
             Project.ID := "";
             Project.Name := name;
             Project.Parameters := Some NewParametersEmpty;
             Project.ParentProject := parent;
             Project.ParentProjectID := parentProjectID;
             Project.WebURL := "";
             Project.BuildTypes := zeroValue;
             Project.UUID := "" |},
     None).

(** [(p *Project) SetParentProject] *)
Definition SetParentProject {B} (p : Project.t B) (parentID : string)
  : Project.t B :=
  Project.set_Parent parentID
    (Some {| ProjectReference.ID := parentID;
             ProjectReference.Name := "";
             ProjectReference.Description := "";
             ProjectReference.Href := "";
             ProjectReference.WebURL := "" |}) p.

(** [(p *Project) ProjectReference] *)
Definition Project_ProjectReference {B} (p : Project.t B)
  : ProjectReference.t :=
  {| ProjectReference.ID := Project.ID p;
     ProjectReference.Description := Project.Description p;
     ProjectReference.Name := Project.Name p;
     ProjectReference.WebURL := Project.WebURL p;
     ProjectReference.Href := Project.Href p |}.

(** [(p *Project) Locator] *)
Definition Project_Locator {B} (p : Project.t B) : Locator.t :=
  LocatorUUID (Project.UUID p).

(** What a call returning a project pointer and an error hands back. *)
Definition ProjectResult (B : Type) : Type :=
  (option (Project.t B) * option error)%type.

Module ProjectService.

Record t : Type := mk { sling : Sling; restHelper : restHelper.t }.

Definition fields (s : t) : getFields := {| Fields := "$long,uuid" |}.

Section Operations.
Context {B W : Type} `{HTTPClient B W}.
Context `{Unmarshal (Project.t B)} `{Unmarshal ProjectReference.t}
        `{Unmarshal (option Parameters.t)}.

Definition Get (s : t) (locator : Locator.t) : Client B W (ProjectResult B) :=
  r <- restHelper.getWithFields (restHelper s) (Locator.String locator)
                                (fields s) "project";;
  match r with
  | Err err => ret (None, Some err)
  | Ok out =>
      (* out.Parameters = out.Parameters.NonInherited(): the method reads
         the items of its receiver, so a nil pointer panics there *)
      match Project.Parameters out with
      | None => panic
      | Some ps =>
          ret (Some (Project.set_Parameters
                       (Some (Parameters.NonInherited ps)) out), None)
      end
  end.

Definition GetByID (s : t) (id : string) : Client B W (ProjectResult B) :=
  Get s (LocatorID id).

Definition GetByName (s : t) (name : string) : Client B W (ProjectResult B) :=
  Get s (LocatorName name).

Definition GetByUUID (s : t) (uuid : string) : Client B W (ProjectResult B) :=
  Get s (LocatorUUID uuid).

Definition DeleteLocator (s : t) (locator : Locator.t)
  : Client B W (option error) :=
  restHelper.deleteByIDWithSling (restHelper s) (sling s)
                                 (Locator.String locator) "project".

Definition Delete (s : t) (id : string) : Client B W (option error) :=
  DeleteLocator s (LocatorID id).

Definition updateStringField (s : t) (locator : Locator.t)
           (fieldName value fieldDescription : string)
  : Client B W (option error) :=
  r <- restHelper.putTextPlain (restHelper s)
         (Locator.String locator +:+ "/" +:+ fieldName) value
         fieldDescription;;
  ret (snd r).

(** [if err != nil { return nil, err }] around a step that yields an
    [error]. *)
Definition orReturn (step : Client B W (option error))
           (rest : Client B W (ProjectResult B))
  : Client B W (ProjectResult B) :=
  err <- step;;
  match err with
  | Some err => ret (None, Some err)
  | None => rest
  end.

(** [if cond { err := step; if err != nil { return nil, err } }] *)
Definition whenDiffers (cond : bool) (step : Client B W (option error))
           (rest : Client B W (ProjectResult B))
  : Client B W (ProjectResult B) :=
  if cond then orReturn step rest else rest.

Definition updateProject (s : t) (locator : Locator.t) (project : Project.t B)
           (isCreate : bool) : Client B W (ProjectResult B) :=
  r <- Get s locator;;
  match r with
  | (_, Some err) => ret (None, Some err)
  | (None, None) => panic
  | (Some current, None) =>
    whenDiffers (negb (String.eqb (Project.Name current)
                                  (Project.Name project)))
      (updateStringField s locator "name" (Project.Name project)
                         "project name")
    (whenDiffers (negb (String.eqb (Project.Description current)
                                   (Project.Description project)))
      (updateStringField s locator "description"
                         (Project.Description project) "project description")
    (whenDiffers (negb (String.eqb (Project.ID current) (Project.ID project)))
      (updateStringField s locator "id" (Project.ID project) "project id")
    ((* Update Parent *)
     perr <-
       (if negb isCreate
        then
          if (negb (String.eqb (Project.ParentProjectID project) "")
              || bool_decide (Project.ParentProject project <> None))
             && negb (String.eqb (Project.ParentProjectID current)
                                 (Project.ParentProjectID project))
          then
            r <- restHelper.put (T := ProjectReference.t) (restHelper s)
                   (Project.ID project +:+ "/parentProject")
                   (JSONProjectReference (Project.ParentProject project))
                   "parent project";;
            ret (error_of r)
          else ret None
        else ret None);;
     match perr with
     | Some _ => ret (None, None)          (* return nil, nil *)
     | None =>
       (* Update Parameters *)
       match Project.Parameters project with
       | None => panic                     (* project.Parameters.Count *)
       | Some parameters =>
         whenDiffers (Parameters.Count parameters >? 0)
           (r <- restHelper.put (T := option Parameters.t) (restHelper s)
                  (Project.ID project +:+ "/parameters")
                  (JSONParameters (Some parameters)) "project parameters";;
            ret (error_of r))
           (r <- Get s locator;;            (* Refresh after update *)
            match r with
            | (_, Some err) => ret (None, Some err)
            | (out, None) => ret (out, None)
            end)
       end
     end)))
  end.

Definition Update (s : t) (project : Project.t B)
  : Client B W (ProjectResult B) :=
  updateProject s (LocatorUUID (Project.UUID project)) project false.

(** [Create] writes through its argument ([project.ID = created.ID]): the
    first component of the value returned here is the caller's project as
    the call leaves it; the second is the pair the source returns. *)
Definition Create (s : t) (project : Project.t B)
  : Client B W (Project.t B * ProjectResult B) :=
  r <- restHelper.post (T := Project.t B) (restHelper s) ""
         (JSONProject project) "project";;
  match r with
  | Err err => ret (project, (None, Some err))
  | Ok created =>
      let project := Project.set_ID (Project.ID created) project in
      r <- updateProject s (LocatorID (Project.ID created)) project true;;
      match r with
      | (_, Some err) => ret (project, (None, Some err))
      | (updated, None) => ret (project, (updated, None))
      end
  end.

End Operations.
End ProjectService.

Definition newProjectService (base : Sling) : ProjectService.t :=
  let sling := Sling_Path base "projects/" in
  {| ProjectService.sling := sling;
     ProjectService.restHelper := newRestHelper sling |}.

(* ===================================================================== *)
(** * The project service, earlier revision *)
(* ===================================================================== *)

(** The earlier revision of the project service kept with the sources: it
    addresses the project by [project.ID] instead of a locator argument and
    writes the name and the description without comparing.  Its [Project]
    has no [UUID] field; the field stays unread here. *)
Module Part000.
Module ProjectService.

Record t : Type := mk { sling : Sling; restHelper : restHelper.t }.

Section Operations.
Context {B W : Type} `{HTTPClient B W}.
Context `{Unmarshal (Project.t B)} `{Unmarshal ProjectReference.t}
        `{Unmarshal (option Parameters.t)}.

Definition getAndFilter (s : t) (locator : string)
  : Client B W (ProjectResult B) :=
  r <- restHelper.get (restHelper s) locator "project";;
  match r with
  | Err err => ret (None, Some err)
  | Ok out =>
      match Project.Parameters out with
      | None => panic
      | Some ps =>
          ret (Some (Project.set_Parameters
                       (Some (Parameters.NonInherited ps)) out), None)
      end
  end.

Definition GetByID (s : t) (id : string) : Client B W (ProjectResult B) :=
  getAndFilter s (Locator.String (LocatorID id)).

Definition GetByName (s : t) (name : string) : Client B W (ProjectResult B) :=
  getAndFilter s (Locator.String (LocatorName name)).

Definition Delete (s : t) (id : string) : Client B W (option error) :=
  restHelper.deleteByIDWithSling (restHelper s) (sling s) id "project".

Definition updateProject (s : t) (project : Project.t B) (isCreate : bool)
  : Client B W (ProjectResult B) :=
  r <- restHelper.putTextPlain (restHelper s) (Project.ID project +:+ "/name")
         (Project.Name project) "project name";;
  match snd r with
  | Some err => ret (None, Some err)
  | None =>
  r <- restHelper.putTextPlain (restHelper s)
         (Project.ID project +:+ "/description")
         (Project.Description project) "project description";;
  match snd r with
  | Some err => ret (None, Some err)
  | None =>
  (* Update Parent: [Some None] continues, [Some (Some res)] returns [res] *)
  early <-
    (if negb isCreate
     then
       r <- GetByID s (Project.ID project);;
       match r with
       | (_, Some err) => ret (Some (None, Some err))
       | (None, None) => panic
       | (Some current, None) =>
           if (negb (String.eqb (Project.ParentProjectID project) "")
               || bool_decide (Project.ParentProject project <> None))
              && negb (String.eqb (Project.ParentProjectID current)
                                  (Project.ParentProjectID project))
           then
             r <- restHelper.put (T := ProjectReference.t) (restHelper s)
                    (Project.ID project +:+ "/parentProject")
                    (JSONProjectReference (Project.ParentProject project))
                    "parent project";;
             match r with
             | Err _ => ret (Some (None, None))      (* return nil, nil *)
             | Ok _ => ret None
             end
           else ret None
       end
     else ret None);;
  match early with
  | Some res => ret res
  | None =>
  (* Update Parameters *)
  match Project.Parameters project with
  | None => panic
  | Some parameters =>
      perr <-
        (if Parameters.Count parameters >? 0
         then
           r <- restHelper.put (T := option Parameters.t) (restHelper s)
                  (Project.ID project +:+ "/parameters")
                  (JSONParameters (Some parameters)) "project parameters";;
           ret (error_of r)
         else ret None);;
      match perr with
      | Some err => ret (None, Some err)
      | None =>
          r <- GetByID s (Project.ID project);;   (* Refresh after update *)
          match r with
          | (_, Some err) => ret (None, Some err)
          | (out, None) => ret (out, None)
          end
      end
  end
  end
  end
  end.

Definition Update (s : t) (project : Project.t B)
  : Client B W (ProjectResult B) :=
  updateProject s project false.

Definition Create (s : t) (project : Project.t B)
  : Client B W (Project.t B * ProjectResult B) :=
  r <- restHelper.post (T := ProjectReference.t) (restHelper s) ""
         (JSONProject project) "project";;
  match r with
  | Err err => ret (project, (None, Some err))
  | Ok created =>
      let project := Project.set_ID (ProjectReference.ID created) project in
      r <- updateProject s project true;;
      match r with
      | (_, Some err) => ret (project, (None, Some err))
      | (updated, None) => ret (project, (updated, None))
      end
  end.

End Operations.
End ProjectService.
End Part000.

(* ===================================================================== *)
(** * The agent pool service *)
(* ===================================================================== *)

Module AgentPoolsService.

Record t : Type := mk { sling : Sling; restHelper : restHelper.t }.

Section Operations.
Context {B W : Type} `{HTTPClient B W}.
Context `{Unmarshal AgentPool.t} `{Unmarshal ListAgentPools.t}.

Definition Create (s : t) (pool : AgentPool.t)
  : Client B W (option AgentPool.t * option error) :=
  r <- restHelper.post (restHelper s) "" (JSONAgentPool pool) "Agent Pool";;
  match r with
  | Err err => ret (None, Some err)
  | Ok created => ret (Some created, None)
  end.

Definition Delete (s : t) (id : Z) : Client B W (option error) :=
  let locator := Locator.String (LocatorIDInt id) in
  err <- restHelper.delete (restHelper s) locator "Agent Pool";;
  match err with
  | Some err => ret (Some err)
  | None => ret None
  end.

Definition Get (s : t) (id : Z)
  : Client B W (option AgentPool.t * option error) :=
  let locator := Locator.String (LocatorIDInt id) in
  r <- restHelper.get (restHelper s) locator "Agent Pool";;
  match r with
  | Err err => ret (None, Some err)
  | Ok out => ret (Some out, None)
  end.

Definition List (s : t)
  : Client B W (option ListAgentPools.t * option error) :=
  r <- restHelper.get (restHelper s) "" "Agent Pools";;
  match r with
  | Err err => ret (None, Some err)
  | Ok out => ret (Some out, None)
  end.

End Operations.
End AgentPoolsService.

Definition newAgentPoolsService (base : Sling) : AgentPoolsService.t :=
  let sling := Sling_Path base "agentPools/" in
  {| AgentPoolsService.sling := sling;
     AgentPoolsService.restHelper := newRestHelperWithSling sling |}.

(* ===================================================================== *)
(** * The Slack connection project feature *)
(* ===================================================================== *)

Module ProjectFeatureSlackConnectionOptions.
Record t : Type := mk {
  ClientId : string;
  ClientSecret : string;
  DisplayName : string;
  ProviderType : string;
  Token : string
}.
End ProjectFeatureSlackConnectionOptions.

Module projectFeatureJSON.
(** [projectFeatureJSON] is declared outside the embedded sources, which
    read its [ID] and call [GetOk] on its [Properties]. *)
Record t : Type := mk { ID : string; Type_ : string; Properties : Properties.t }.
End projectFeatureJSON.

Module ProjectFeatureSlackConnection.

Record t : Type := mk {
  id : string;
  projectID : string;
  Options : ProjectFeatureSlackConnectionOptions.t
}.

Definition ID (f : t) : string := id f.

Definition SetID (f : t) (value : string) : t :=
  {| id := value; projectID := projectID f; Options := Options f |}.

Definition Type_ (f : t) : string := "OAuthProvider".

Definition ProjectID (f : t) : string := projectID f.

Definition SetProjectID (f : t) (value : string) : t :=
  {| id := id f; projectID := value; Options := Options f |}.

Definition Properties (f : t) : Properties.t :=
  let props := NewProperties
    [ NewProperty "clientId"
        (ProjectFeatureSlackConnectionOptions.ClientId (Options f));
      NewProperty "secure:clientSecret"
        (ProjectFeatureSlackConnectionOptions.ClientSecret (Options f));
      NewProperty "displayName"
        (ProjectFeatureSlackConnectionOptions.DisplayName (Options f));
      NewProperty "providerType" "slackConnection";
      NewProperty "secure:token"
        (ProjectFeatureSlackConnectionOptions.Token (Options f)) ] in
  props.

End ProjectFeatureSlackConnection.







(* ===================================================================== *)
(** * The golang build feature *)
(* ===================================================================== *)

(** [FeatureGolang] holds a pointer to its [Properties]; [MarshalJSON]
    writes through that pointer.  Pointers to property collections are
    locations of a store; [None] is the [nil] pointer. *)
Abbreviation loc := positive.
Abbreviation store := (gmap positive Properties.t).

Module buildFeatureJSON.
(** [buildFeatureJSON] is declared outside the embedded sources, which set
    and read the five fields below.  The encoder and the decoder see the
    contents of [Properties], not its address. *)
Record t : Type := mk {
  ID : string;
  Disabled : option bool;
  Properties : option Properties.t;
  Inherited : option bool;
  Type_ : string
}.
End buildFeatureJSON.

(** [json.Marshal]: a parameter, like decoding.  [inr msg] is a failure. *)
Class Marshal (T : Type) : Type :=
  marshal : T -> string + string.

Definition json_Marshal {T} `{Marshal T} (v : T) : string * option error :=
  match marshal v with
  | inl bytes => (bytes, None)
  | inr msg => ("", Some (EncodeError msg))
  end.

Definition NewBool (b : bool) : option bool := Some b.
Definition NewFalse : option bool := Some false.

Module FeatureGolang.

Record t : Type := mk {
  id : string;
  disabled : bool;
  buildTypeID : string;
  properties : option loc
}.

Definition ID (f : t) : string := id f.

Definition SetID (f : t) (value : string) : t :=
  {| id := value; disabled := disabled f; buildTypeID := buildTypeID f;
     properties := properties f |}.

Definition Type_ (f : t) : string := "golang".

Definition Disabled (f : t) : bool := disabled f.

Definition SetDisabled (f : t) (value : bool) : t :=
  {| id := id f; disabled := value; buildTypeID := buildTypeID f;
     properties := properties f |}.

Definition BuildTypeID (f : t) : string := buildTypeID f.

Definition SetBuildTypeID (f : t) (value : string) : t :=
  {| id := id f; disabled := disabled f; buildTypeID := value;
     properties := properties f |}.

Definition Properties (f : t) : option loc := properties f.

(** The value [json.Marshal(out)] encodes, and the store afterwards.  On a
    feature without a collection [out.Properties] is [nil] and
    [AddOrReplaceValue] is called on a [nil] pointer: the call, which has
    to read the collection it updates, panics ([None]). *)
Definition MarshalJSON_out `{Properties.Updater} (f : t) (h : store)
  : option (buildFeatureJSON.t * store) :=
  (* out := &buildFeatureJSON{..., Properties: f.properties, ...} *)
  let out_Properties := properties f in
  (* out.Properties.AddOrReplaceValue("test.format", "json") *)
  match out_Properties with
  | None => None
  | Some l =>
      match h !! l with
      | None => None
      | Some ps =>
          let h' :=
            <[l := Properties.AddOrReplaceValue ps "test.format" "json"]> h in
          Some ({| buildFeatureJSON.ID := id f;
                   buildFeatureJSON.Disabled := NewBool (disabled f);
                   buildFeatureJSON.Properties := h' !! l;
                   buildFeatureJSON.Inherited := NewFalse;
                   buildFeatureJSON.Type_ := Type_ f |}, h')
      end
  end.

Definition MarshalJSON `{Properties.Updater} `{Marshal buildFeatureJSON.t}
           (f : t) (h : store)
  : option ((string * option error) * store) :=
  match MarshalJSON_out f h with
  | None => None
  | Some (out, h') => Some (json_Marshal out, h')
  end.

(** The receiver and the store after the call, with the returned [error];
    [None] when the call panics ([aux.Properties] is [nil]). *)
Definition UnmarshalJSON `{Unmarshal buildFeatureJSON.t} (f : t)
           (data : string) (h : store) : option (option error * t * store) :=
  match json_Unmarshal (T := buildFeatureJSON.t) data with
  | Err err => Some (Some err, f, h)
  | Ok aux =>
      let disabled :=
        match buildFeatureJSON.Disabled aux with
        | None => NewFalse
        | Some d => Some d
        end in
      match disabled, buildFeatureJSON.Properties aux with
      | Some d, Some auxProperties =>
          let l := fresh (dom h) in
          Some (None,
                {| id := buildFeatureJSON.ID aux; disabled := d;
                   buildTypeID := buildTypeID f; properties := Some l |},
                <[l := NewProperties (Properties.Items auxProperties)]> h)
      | _, _ => None
      end
  end.

End FeatureGolang.


(* ===================================================================== *)
(** * The update plan *)
(* ===================================================================== *)

(** The writes [updateProject] is to send, in order, for a desired
    [project] against the [current] state fetched from the server: one PUT
    per field, each under its guard. *)
Section Plan.
Context {B : Type}.

Definition stringFieldWrite (s : ProjectService.t) (locator : Locator.t)
           (fieldName value : string) : Request B :=
  slingRequest (restHelper.sling (ProjectService.restHelper s)) PUT
               (Locator.String locator +:+ "/" +:+ fieldName) []
               textPlainHeader (TextPlain value).

Definition nameWrite (s : ProjectService.t) (locator : Locator.t)
           (project : Project.t B) : Request B :=
  stringFieldWrite s locator "name" (Project.Name project).

Definition descriptionWrite (s : ProjectService.t) (locator : Locator.t)
           (project : Project.t B) : Request B :=
  stringFieldWrite s locator "description" (Project.Description project).

Definition idWrite (s : ProjectService.t) (locator : Locator.t)
           (project : Project.t B) : Request B :=
  stringFieldWrite s locator "id" (Project.ID project).

Definition parentWrite (s : ProjectService.t) (project : Project.t B)
  : Request B :=
  slingRequest (restHelper.sling (ProjectService.restHelper s)) PUT
               (Project.ID project +:+ "/parentProject") [] jsonHeader
               (JSONProjectReference (Project.ParentProject project)).

Definition parametersWrite (s : ProjectService.t) (project : Project.t B)
  : Request B :=
  slingRequest (restHelper.sling (ProjectService.restHelper s)) PUT
               (Project.ID project +:+ "/parameters") [] jsonHeader
               (JSONParameters (Project.Parameters project)).

Definition nameDiffers (current project : Project.t B) : bool :=
  negb (String.eqb (Project.Name current) (Project.Name project)).

Definition descriptionDiffers (current project : Project.t B) : bool :=
  negb (String.eqb (Project.Description current) (Project.Description project)).

Definition idDiffers (current project : Project.t B) : bool :=
  negb (String.eqb (Project.ID current) (Project.ID project)).

(** The parent is written on an update (not on a creation), when the
    desired project names a parent and its identifier is not the current
    one. *)
Definition parentDiffers (current project : Project.t B) (isCreate : bool)
  : bool :=
  negb isCreate
  && ((negb (String.eqb (Project.ParentProjectID project) "")
       || bool_decide (Project.ParentProject project <> None))
      && negb (String.eqb (Project.ParentProjectID current)
                          (Project.ParentProjectID project))).

(** The parameters are written whenever the desired project has some,
    without a look at the current ones. *)
Definition parametersPresent (project : Project.t B) : bool :=
  match Project.Parameters project with
  | Some parameters => Parameters.Count parameters >? 0
  | None => false
  end.

Definition plannedWrites (s : ProjectService.t) (locator : Locator.t)
           (current project : Project.t B) (isCreate : bool)
  : list (Request B) :=
  (if nameDiffers current project then [nameWrite s locator project] else [])
  ++ (if descriptionDiffers current project
      then [descriptionWrite s locator project] else [])
  ++ (if idDiffers current project then [idWrite s locator project] else [])
  ++ (if parentDiffers current project isCreate
      then [parentWrite s project] else [])
  ++ (if parametersPresent project then [parametersWrite s project] else []).

End Plan.

(* ===================================================================== *)
(** * Vocabulary of the statements *)
(* ===================================================================== *)

Section Vocabulary.
Context {B W : Type} `{HTTPClient B W}.

(** The world [w] answers the request [req] with the response [resp]. *)
Definition responds (w : W) (req : Request B) (resp : Response) : Prop :=
  fst (Do req w) = Ok resp.

(** One round trip: the call sends [req] and nothing else, leaves the world
    where [Do] left it, and does not panic. *)
Definition oneRoundTrip {A} (req : Request B) (m : Client B W A) : Prop :=
  forall w, sent (m w) = [req] /\ world (m w) = snd (Do req w)
            /\ outcome (m w) <> None.

(** The GET of [ProjectService.Get]. *)
Definition getRequest (s : ProjectService.t) (locator : Locator.t)
  : Request B :=
  slingRequest (restHelper.sling (ProjectService.restHelper s)) GET
               (Locator.String locator)
               (QueryStruct (ProjectService.fields s)) [] NoBody.

(** The POST of [ProjectService.Create]. *)
Definition createRequest (s : ProjectService.t) (project : Project.t B)
  : Request B :=
  slingRequest (restHelper.sling (ProjectService.restHelper s)) POST ""
               [] jsonHeader (JSONProject project).

(** The first call of [ProjectService.Create]. *)
Definition creationPost `{Unmarshal (Project.t B)} (s : ProjectService.t)
           (project : Project.t B) : Client B W (result (Project.t B)) :=
  restHelper.post (T := Project.t B) (ProjectService.restHelper s) ""
                  (JSONProject project) "project".

(** A run follows a plan [L]: the writes it sent are an initial segment of
    [L], and all of [L] when it returned a project. *)
Definition follows (L : list (Request B)) (r : Run B W (ProjectResult B))
  : Prop :=
  (exists k, writes (sent r) = take k L)
  /\ (forall out, outcome r = Some (Some out, None) -> writes (sent r) = L).

End Vocabulary.

(** What a JSON-decoding helper call returns for a response, by status;
    [good] holds of the success codes of the verb [op].  The call succeeds
    exactly on a good status whose body decodes; on a good status it returns
    what the decoder returns; on any other status, with a readable body, it
    returns the formatted error that carries the status, the verb, the
    resource description and the body. *)
Definition decodingContract {T} `{Unmarshal T} (op desc : string)
           (good : Z -> Prop) (resp : Response) (res : option (result T))
  : Prop :=
  ((exists v, res = Some (Ok v))
   <-> good (StatusCode resp) /\ exists v, json_Decode (RespBody resp) = Ok v)
  /\ (good (StatusCode resp) -> res = Some (json_Decode (RespBody resp)))
  /\ (forall body, ~ good (StatusCode resp) -> RespBody resp = Bytes body ->
      res = Some (Err (Errorf ("Error '" +:+ Sprintf_d (StatusCode resp)
                               +:+ "' when performing '" +:+ op
                               +:+ "' operation - " +:+ desc +:+ ": "
                               +:+ body)))).

(* ===================================================================== *)
(** * Vocabulary of the statements, continued *)
(* ===================================================================== *)

(** Every request a call sends, from whatever state of the world,
    satisfies [P]. *)
Definition allSent {B W A} (P : Request B -> Prop) (m : Client B W A) : Prop :=
  forall w, Forall P (sent (m w)).

(** The request does not carry a parent reference. *)
Definition carriesNoParent {B} (r : Request B) : Prop :=
  forall ref, Body r <> JSONProjectReference ref.

(** The parent reference of a project, when there is one, names the parent
    the project names. *)
Definition parentAgrees {B} (p : Project.t B) : Prop :=
  forall r, Project.ParentProject p = Some r ->
            ProjectReference.ID r = Project.ParentProjectID p.

(** A run that returns a project has fetched it: the project is what [Get]
    returns from some state of the world, the run ends where that fetch
    ends, and the fetch is the last request sent. *)
Definition refreshed {B W} `{HTTPClient B W} `{Unmarshal (Project.t B)}
           (s : ProjectService.t) (locator : Locator.t)
           (r : Run B W (ProjectResult B)) : Prop :=
  forall out, outcome r = Some (Some out, None) ->
    exists w',
      outcome (ProjectService.Get s locator w') = Some (Some out, None)
      /\ world r = world (ProjectService.Get s locator w')
      /\ exists before, sent r = before ++ [getRequest s locator].

(* ===================================================================== *)
(** * Concrete servers and codecs *)
(* ===================================================================== *)

(** Concrete instances of the parameters, used to run the client on
    examples: a server that plays back a list of responses, a server that
    holds one project, and a codec that recognises the JSON texts of a
    finite list of values (any other text fails to decode, as the empty
    body does with a real decoder). *)
Module Demo.

#[export] Instance unit_zero : ZeroValue unit := tt.

(** ** JSON texts *)

Definition dq : string := String "034"%char EmptyString.

Definition jstr (s : string) : string := dq +:+ s +:+ dq.

Definition jfield (k v : string) : string := jstr k +:+ ":" +:+ v.

Definition jobj (fields : list string) : string :=
  "{" +:+ String.concat "," fields +:+ "}".

Definition jarr (xs : list string) : string :=
  "[" +:+ String.concat "," xs +:+ "]".

(** A string field tagged [omitempty]. *)
Definition omitempty (k v : string) : list string :=
  if String.eqb v "" then [] else [jfield k (jstr v)].

Definition renderParam (p : Param.t) : string :=
  jobj ([jfield "name" (jstr (Param.Name p));
         jfield "value" (jstr (Param.Value p))]
        ++ (if Param.Inherited p then [jfield "inherited" "true"] else [])).

Definition renderParameters (ps : Parameters.t) : string :=
  jobj ((if Parameters.Count ps =? 0 then []
         else [jfield "count" (pretty (Parameters.Count ps))])
        ++ omitempty "href" (Parameters.Href ps)
        ++ [jfield "property" (jarr (List.map renderParam (Parameters.Items ps)))]).

Definition renderOptParameters (ps : option Parameters.t) : string :=
  match ps with
  | Some ps => renderParameters ps
  | None => "null"
  end.

Definition renderReference (r : ProjectReference.t) : string :=
  jobj (omitempty "id" (ProjectReference.ID r)
        ++ omitempty "name" (ProjectReference.Name r)
        ++ omitempty "description" (ProjectReference.Description r)
        ++ omitempty "href" (ProjectReference.Href r)
        ++ omitempty "webUrl" (ProjectReference.WebURL r)).

Definition renderProject (p : Project.t unit) : string :=
  jobj (omitempty "description" (Project.Description p)
        ++ omitempty "href" (Project.Href p)
        ++ omitempty "id" (Project.ID p)
        ++ omitempty "name" (Project.Name p)
        ++ match Project.Parameters p with
           | Some ps => [jfield "parameters" (renderParameters ps)]
           | None => []
           end
        ++ match Project.ParentProject p with
           | Some r => [jfield "parentProject" (renderReference r)]
           | None => []
           end
        ++ omitempty "parentProjectId" (Project.ParentProjectID p)
        ++ omitempty "webUrl" (Project.WebURL p)
        ++ omitempty "uuid" (Project.UUID p)).

Definition renderAgentPool (a : AgentPool.t) : string :=
  jobj (omitempty "href" (AgentPool.Href a)
        ++ (if AgentPool.Id a =? 0 then []
            else [jfield "id" (pretty (AgentPool.Id a))])
        ++ omitempty "name" (AgentPool.Name a)
        ++ match AgentPool.MaxAgents a with
           | Some n => [jfield "maxAgents" (pretty n)]
           | None => []
           end).

(** Decoding by recognition: the value among [known] whose JSON text is
    the input. *)
Definition decodeAmong {T} (render : T -> string) (known : list T)
           (data : string) : T + string :=
  match List.find (fun v => String.eqb (render v) data) known with
  | Some v => inl v
  | None => inr "unexpected end of JSON input"
  end.

(** The codec of the examples reads the whole body and recognises it: its
    decoder agrees with decoding the content, and fails on a stream that
    breaks. *)
Definition codec {T} (render : T -> string) (known : list T) : Unmarshal T :=
  {| unmarshal := decodeAmong render known;
     decode := fun body =>
       match body with
       | Bytes data =>
           match decodeAmong render known data with
           | inl v => Ok v
           | inr msg => Err (DecodeError msg)
           end
       | Broken e => Err e
       end |}.

(** ** The values of the examples *)

Definition rootReference : ProjectReference.t :=
  {| ProjectReference.ID := "_Root"; ProjectReference.Name := "";
     ProjectReference.Description := ""; ProjectReference.Href := "";
     ProjectReference.WebURL := "" |}.

Definition otherReference : ProjectReference.t :=
  {| ProjectReference.ID := "Other"; ProjectReference.Name := "";
     ProjectReference.Description := ""; ProjectReference.Href := "";
     ProjectReference.WebURL := "" |}.

Definition stage : Param.t :=
  {| Param.Name := "env.STAGE"; Param.Value := "prod";
     Param.Inherited := false |}.

Definition region : Param.t :=
  {| Param.Name := "env.REGION"; Param.Value := "eu";
     Param.Inherited := true |}.

(** The parameters the server reports: one of the project's own, one
    inherited. *)
Definition serverParameters : Parameters.t :=
  {| Parameters.Count := 2; Parameters.Href := "";
     Parameters.Items := [stage; region] |}.

Definition ownParameters : Parameters.t :=
  {| Parameters.Count := 1; Parameters.Href := "";
     Parameters.Items := [stage] |}.

(** The project as the server holds and reports it. *)
Definition onServer : Project.t unit :=
  {| Project.Archived := None;
     Project.Description := "demo project";
     Project.Href := "";
     Project.ID := "Demo";
     Project.Name := "Demo";
     Project.Parameters := Some serverParameters;
     Project.ParentProject := Some rootReference;
     Project.ParentProjectID := "_Root";
     Project.WebURL := "";
     Project.BuildTypes := tt;
     Project.UUID := "u-1" |}.

(** The project as [Get] hands it to the caller. *)
Definition fetched : Project.t unit :=
  Project.set_Parameters (Some ownParameters) onServer.

(** The caller moves the fetched project under another parent. *)
Definition moved : Project.t unit := SetParentProject fetched "Other".

(** The caller renames the fetched project and moves it. *)
Definition renamedAndMoved : Project.t unit :=
  {| Project.Archived := None;
     Project.Description := "demo project";
     Project.Href := "";
     Project.ID := "Demo";
     Project.Name := "Renamed";
     Project.Parameters := Some ownParameters;
     Project.ParentProject := Some otherReference;
     Project.ParentProjectID := "Other";
     Project.WebURL := "";
     Project.BuildTypes := tt;
     Project.UUID := "u-1" |}.

(** The server's project after the rename. *)
Definition renamedOnServer : Project.t unit :=
  {| Project.Archived := None;
     Project.Description := "demo project";
     Project.Href := "";
     Project.ID := "Demo";
     Project.Name := "Renamed";
     Project.Parameters := Some serverParameters;
     Project.ParentProject := Some rootReference;
     Project.ParentProjectID := "_Root";
     Project.WebURL := "";
     Project.BuildTypes := tt;
     Project.UUID := "u-1" |}.

(** A project fresh from [NewProject "Demo" "demo project" ""]. *)
Definition fresh_project : Project.t unit :=
  {| Project.Archived := None;
     Project.Description := "demo project";
     Project.Href := "";
     Project.ID := "";
     Project.Name := "Demo";
     Project.Parameters := Some NewParametersEmpty;
     Project.ParentProject := None;
     Project.ParentProjectID := "";
     Project.WebURL := "";
     Project.BuildTypes := tt;
     Project.UUID := "" |}.

(** What the server answers to the creation: no description, no
    parameters. *)
Definition createdOnServer : Project.t unit :=
  {| Project.Archived := None;
     Project.Description := "";
     Project.Href := "";
     Project.ID := "Demo";
     Project.Name := "Demo";
     Project.Parameters := None;
     Project.ParentProject := Some rootReference;
     Project.ParentProjectID := "_Root";
     Project.WebURL := "";
     Project.BuildTypes := tt;
     Project.UUID := "u-1" |}.

(** The created project as the server reports it right after the creation:
    the description has not been kept. *)
Definition undescribedOnServer : Project.t unit :=
  {| Project.Archived := None;
     Project.Description := "";
     Project.Href := "";
     Project.ID := "Demo";
     Project.Name := "Demo";
     Project.Parameters := Some serverParameters;
     Project.ParentProject := Some rootReference;
     Project.ParentProjectID := "_Root";
     Project.WebURL := "";
     Project.BuildTypes := tt;
     Project.UUID := "u-1" |}.

(** A project built without [NewProject], with no name. *)
Definition unnamed_project : Project.t unit :=
  {| Project.Archived := None;
     Project.Description := "demo project";
     Project.Href := "";
     Project.ID := "";
     Project.Name := "";
     Project.Parameters := Some NewParametersEmpty;
     Project.ParentProject := None;
     Project.ParentProjectID := "";
     Project.WebURL := "";
     Project.BuildTypes := tt;
     Project.UUID := "" |}.

Definition defaultPool : AgentPool.t :=
  {| AgentPool.Href := ""; AgentPool.Id := 1; AgentPool.Name := "Default";
     AgentPool.MaxAgents := None |}.

(** ** The codec *)

#[export] Instance decodeProject : Unmarshal (Project.t unit) :=
  codec renderProject [onServer; renamedOnServer; createdOnServer;
                       undescribedOnServer].

#[export] Instance decodeReference : Unmarshal ProjectReference.t :=
  codec renderReference [rootReference; otherReference].

#[export] Instance decodeParameters : Unmarshal (option Parameters.t) :=
  codec renderOptParameters [Some ownParameters; Some serverParameters; None].

#[export] Instance decodeAgentPool : Unmarshal AgentPool.t :=
  codec renderAgentPool [defaultPool].

(** ** A server that plays back responses *)

Definition Script : Type := list (result Response).

#[export] Instance playback : HTTPClient unit Script :=
  fun _ script =>
    match script with
    | [] => (Err (TransportError "connection refused"), [])
    | response :: rest => (response, rest)
    end.

Definition ok200 (body : string) : result Response :=
  Ok {| StatusCode := 200; RespBody := Bytes body |}.

Definition fail500 : result Response :=
  Ok {| StatusCode := 500; RespBody := Bytes "Internal Server Error" |}.

Definition projects : ProjectService.t :=
  newProjectService {| rawURL := "http://tc/app/rest/" |}.

Definition earlierProjects : Part000.ProjectService.t :=
  {| Part000.ProjectService.sling := ProjectService.sling projects;
     Part000.ProjectService.restHelper := ProjectService.restHelper projects |}.

Definition pools : AgentPoolsService.t :=
  newAgentPoolsService {| rawURL := "http://tc/app/rest/" |}.

(** The server reports the demo project three times and accepts the
    parameters in between. *)
Definition unchangedScript : Script :=
  [ok200 (renderProject onServer);
   ok200 (renderParameters ownParameters);
   ok200 (renderProject onServer)].

(** A creation: the POST is answered with the created project, the GET of
    the reconciliation fails. *)
Definition creationScript : Script :=
  [ok200 (renderProject createdOnServer); fail500].

(** A creation that goes through: the POST is answered with the created
    project, the reconciliation finds the description missing, writes it
    and fetches the project again. *)
Definition reconcilingScript : Script :=
  [ok200 (renderProject createdOnServer);
   ok200 (renderProject undescribedOnServer);
   ok200 "demo project";
   ok200 (renderProject onServer)].

(** A server that accepts a project without a name: the reconciliation
    finds a name on the server, writes the empty one and fetches the
    project again. *)
Definition acceptingScript : Script :=
  [ok200 (renderProject createdOnServer);
   ok200 (renderProject onServer);
   ok200 "";
   ok200 (renderProject onServer)].

(** ** A server that holds one project *)

Record Server : Type := {
  held : Project.t unit;
  refused : list string          (* URLs answered with status 500 *)
}.

Definition hasSuffix (suffix s : string) : bool :=
  String.prefix (String.rev suffix) (String.rev s).

Definition hold (p : Project.t unit) (sv : Server) : Server :=
  {| held := p; refused := refused sv |}.

Definition setName (v : string) (p : Project.t unit) : Project.t unit :=
  Project.mk (Project.Archived p) (Project.Description p) (Project.Href p)
             (Project.ID p) v (Project.Parameters p) (Project.ParentProject p)
             (Project.ParentProjectID p) (Project.WebURL p)
             (Project.BuildTypes p) (Project.UUID p).

Definition setDescription (v : string) (p : Project.t unit) : Project.t unit :=
  Project.mk (Project.Archived p) v (Project.Href p)
             (Project.ID p) (Project.Name p) (Project.Parameters p)
             (Project.ParentProject p) (Project.ParentProjectID p)
             (Project.WebURL p) (Project.BuildTypes p) (Project.UUID p).

Definition serve (req : Request unit) (sv : Server)
  : result Response * Server :=
  if existsb (String.eqb (URL req)) (refused sv) then (fail500, sv)
  else
    match Verb req, Body req with
    | GET, _ => (ok200 (renderProject (held sv)), sv)
    | PUT, TextPlain v =>
        if hasSuffix "/name" (URL req)
        then (ok200 v, hold (setName v (held sv)) sv)
        else if hasSuffix "/description" (URL req)
        then (ok200 v, hold (setDescription v (held sv)) sv)
        else if hasSuffix "/id" (URL req)
        then (ok200 v, hold (Project.set_ID v (held sv)) sv)
        else (Ok {| StatusCode := 404; RespBody := Bytes "Not Found" |}, sv)
    | PUT, JSONProjectReference (Some r) =>
        (ok200 (renderReference r),
         hold (Project.set_Parent (ProjectReference.ID r) (Some r) (held sv)) sv)
    | PUT, JSONParameters (Some ps) =>
        (ok200 (renderParameters ps),
         hold (Project.set_Parameters (Some ps) (held sv)) sv)
    | DELETE, _ => (Ok {| StatusCode := 204; RespBody := Bytes "" |}, sv)
    | _, _ => (Ok {| StatusCode := 400; RespBody := Bytes "Bad Request" |}, sv)
    end.

#[export] Instance server : HTTPClient unit Server := serve.

(** ** A store with one golang feature *)

(** An [AddOrReplaceValue] for the examples: the value of the first
    property of that name is replaced; without one, the property is
    appended. *)
Fixpoint replaceFirst (n v : string) (items : list Property.t)
  : option (list Property.t) :=
  match items with
  | [] => None
  | elem :: rest =>
      if String.eqb (Property.Name elem) n
      then Some ({| Property.Name := Property.Name elem;
                    Property.Value := v |} :: rest)
      else option_map (cons elem) (replaceFirst n v rest)
  end.

#[export] Instance replaceOrAppend : Properties.Updater :=
  fun p n v =>
    match replaceFirst n v (Properties.Items p) with
    | Some items =>
        {| Properties.Count := Properties.Count p;
           Properties.Href := Properties.Href p;
           Properties.Items := items |}
    | None =>
        {| Properties.Count := Properties.Count p + 1;
           Properties.Href := Properties.Href p;
           Properties.Items := Properties.Items p ++ [NewProperty n v] |}
    end.

Definition golangStore : gmap positive Properties.t :=
  {[ 1%positive := NewProperties [NewProperty "go.tool" "vet"] ]}.

Definition golang : FeatureGolang.t :=
  {| FeatureGolang.id := "BUILD_EXT_1"; FeatureGolang.disabled := false;
     FeatureGolang.buildTypeID := "Demo_Build";
     FeatureGolang.properties := Some 1%positive |}.

Definition renderProperty (p : Property.t) : string :=
  jobj [jfield "name" (jstr (Property.Name p));
        jfield "value" (jstr (Property.Value p))].

Definition renderBool (b : bool) : string := if b then "true" else "false".

Definition renderFeature (f : buildFeatureJSON.t) : string :=
  jobj (omitempty "id" (buildFeatureJSON.ID f)
        ++ omitempty "type" (buildFeatureJSON.Type_ f)
        ++ match buildFeatureJSON.Disabled f with
           | Some b => [jfield "disabled" (renderBool b)]
           | None => []
           end
        ++ match buildFeatureJSON.Inherited f with
           | Some b => [jfield "inherited" (renderBool b)]
           | None => []
           end
        ++ match buildFeatureJSON.Properties f with
           | Some ps =>
               [jfield "properties"
                  (jobj [jfield "property"
                           (jarr (List.map renderProperty (Properties.Items ps)))])]
           | None => []
           end).

#[export] Instance encodeFeature : Marshal buildFeatureJSON.t :=
  fun f => inl (renderFeature f).

(** A feature as the server reports it, without a [disabled] field. *)
Definition reportedFeature : buildFeatureJSON.t :=
  {| buildFeatureJSON.ID := "BUILD_EXT_1";
     buildFeatureJSON.Disabled := None;
     buildFeatureJSON.Properties := Some (NewProperties [NewProperty "test.format" "json"]);
     buildFeatureJSON.Inherited := None;
     buildFeatureJSON.Type_ := "golang" |}.

(** A feature reported without properties and without a [disabled]
    field. *)
Definition bareFeature : buildFeatureJSON.t :=
  {| buildFeatureJSON.ID := "BUILD_EXT_2";
     buildFeatureJSON.Disabled := None;
     buildFeatureJSON.Properties := None;
     buildFeatureJSON.Inherited := None;
     buildFeatureJSON.Type_ := "golang" |}.

#[export] Instance decodeFeature : Unmarshal buildFeatureJSON.t :=
  codec renderFeature [reportedFeature; bareFeature].


(** ** The Slack connection of the tests *)


End Demo.

(** More values for the examples: a list of agent pools, the golang feature
    as [MarshalJSON] encodes it, and decoders that recognise them. *)
Module Demo2.
Import Demo.

Definition renderPoolReference (a : AgentPoolReference.t) : string :=
  jobj (omitempty "href" (AgentPoolReference.Href a)
        ++ (if AgentPoolReference.Id a =? 0 then []
            else [jfield "id" (pretty (AgentPoolReference.Id a))])
        ++ omitempty "name" (AgentPoolReference.Name a)).

Definition renderPoolList (l : ListAgentPools.t) : string :=
  jobj ((if ListAgentPools.Count l =? 0 then []
         else [jfield "count" (pretty (ListAgentPools.Count l))])
        ++ omitempty "href" (ListAgentPools.Href l)
        ++ match ListAgentPools.AgentPools l with
           | [] => []
           | pools => [jfield "agentPool"
                         (jarr (List.map renderPoolReference pools))]
           end).

Definition onePool : ListAgentPools.t :=
  {| ListAgentPools.Count := 1; ListAgentPools.Href := "";
     ListAgentPools.AgentPools :=
       [{| AgentPoolReference.Href := ""; AgentPoolReference.Id := 1;
           AgentPoolReference.Name := "Default" |}] |}.

Definition decodePoolList : Unmarshal ListAgentPools.t :=
  codec renderPoolList [onePool].

(** The value [MarshalJSON] encodes for the demo feature. *)
Definition golangEncoded : buildFeatureJSON.t :=
  {| buildFeatureJSON.ID := "BUILD_EXT_1";
     buildFeatureJSON.Disabled := Some false;
     buildFeatureJSON.Properties :=
       Some {| Properties.Count := 2; Properties.Href := "";
               Properties.Items := [NewProperty "go.tool" "vet";
                                    NewProperty "test.format" "json"] |};
     buildFeatureJSON.Inherited := Some false;
     buildFeatureJSON.Type_ := "golang" |}.

Definition decodeGolang : Unmarshal buildFeatureJSON.t :=
  codec renderFeature [golangEncoded].

(** Another golang feature, disabled, of another build type, with its own
    collection. *)
Definition otherGolang : FeatureGolang.t :=
  {| FeatureGolang.id := "BUILD_EXT_9"; FeatureGolang.disabled := true;
     FeatureGolang.buildTypeID := "Other_Build";
     FeatureGolang.properties := None |}.

(** The reference the earlier revision decodes from the creation
    response. *)
Definition createdReference : ProjectReference.t :=
  {| ProjectReference.ID := "Demo"; ProjectReference.Name := "Demo";
     ProjectReference.Description := ""; ProjectReference.Href := "";
     ProjectReference.WebURL := "" |}.

Definition decodeCreatedReference : Unmarshal ProjectReference.t :=
  codec renderReference [createdReference].

End Demo2.

(* ===================================================================== *)
(** * Properties *)
(* ===================================================================== *)

(** ** Runs of the client monad *)

Section Runs.
Context {B W : Type}.

Lemma outcome_bind {A C} (m : Client B W A) (k : A -> Client B W C) w a :
  outcome (m w) = Some a ->
  outcome (bind m k w) = outcome (k a (world (m w))).
Proof. intros E. unfold bind. rewrite E. reflexivity. Qed.

Lemma sent_bind {A C} (m : Client B W A) (k : A -> Client B W C) w a :
  outcome (m w) = Some a ->
  sent (bind m k w) = sent (m w) ++ sent (k a (world (m w))).
Proof. intros E. unfold bind. rewrite E. reflexivity. Qed.

Lemma world_bind {A C} (m : Client B W A) (k : A -> Client B W C) w a :
  outcome (m w) = Some a ->
  world (bind m k w) = world (k a (world (m w))).
Proof. intros E. unfold bind. rewrite E. reflexivity. Qed.

Lemma bind_panics {A C} (m : Client B W A) (k : A -> Client B W C) w :
  outcome (m w) = None ->
  outcome (bind m k w) = None /\ sent (bind m k w) = sent (m w)
  /\ world (bind m k w) = world (m w).
Proof. intros E. unfold bind. rewrite E. auto. Qed.

Lemma writes_app (l1 l2 : list (Request B)) :
  writes (l1 ++ l2) = writes l1 ++ writes l2.
Proof. unfold writes. apply List.filter_app. Qed.

End Runs.

(** ** Every helper call is one round trip *)

Section Helper.
Context {B W : Type} `{HTTPClient B W}.

Ltac round_trip :=
  intros w; unfold bind, httpDo, ret; simpl;
  destruct (Do _ w) as [[resp|e] w']; simpl;
  repeat match goal with
         | |- context [if ?c then _ else _] => destruct c; simpl
         | |- context [match ReadAll ?b with _ => _ end] =>
             destruct (ReadAll b); simpl
         | |- context [match ?r with Ok _ => _ | Err _ => _ end] =>
             destruct r; simpl
         end; repeat split; congruence.

Lemma getWithFields_round_trip {T} `{Unmarshal T} r path fields desc :
  oneRoundTrip (slingRequest (restHelper.sling r) GET path (QueryStruct fields) [] NoBody)
               (restHelper.getWithFields (T := T) r path fields desc).
Proof. unfold restHelper.getWithFields. round_trip. Qed.

Lemma put_round_trip {T} `{Unmarshal T} r path data desc :
  oneRoundTrip (slingRequest (restHelper.sling r) PUT path [] jsonHeader data)
               (restHelper.put (T := T) r path data desc).
Proof. unfold restHelper.put. round_trip. Qed.

Lemma post_round_trip {T} `{Unmarshal T} r path data desc :
  oneRoundTrip (slingRequest (restHelper.sling r) POST path [] jsonHeader data)
               (restHelper.post (T := T) r path data desc).
Proof. unfold restHelper.post. round_trip. Qed.

Lemma putTextPlain_round_trip r path data desc :
  oneRoundTrip (slingRequest (restHelper.sling r) PUT path [] textPlainHeader (TextPlain data))
               (restHelper.putTextPlain r path data desc).
Proof. unfold restHelper.putTextPlain. round_trip. Qed.

Lemma delete_round_trip r sl path desc :
  oneRoundTrip (slingRequest sl DELETE path [] [] NoBody)
               (restHelper.deleteByIDWithSling r sl path desc).
Proof. unfold restHelper.deleteByIDWithSling. round_trip. Qed.

End Helper.

(** ** The update follows its plan *)

Section ProjectTheory.
Context {B W : Type} `{HTTPClient B W}.
Context `{Unmarshal (Project.t B)} `{Unmarshal ProjectReference.t}
        `{Unmarshal (option Parameters.t)}.

Import ProjectService.
Lemma Get_sent s locator w :
  sent (Get s locator w) = [getRequest s locator]
  /\ world (Get s locator w) = snd (Do (getRequest s locator) w).
Proof.
  unfold Get.
  destruct (getWithFields_round_trip (T := Project.t B) (restHelper s)
              (Locator.String locator) (fields s) "project" w)
    as (Hs & Hw & Ho).
  destruct (outcome (restHelper.getWithFields (restHelper s) (Locator.String locator) (fields s) "project" w)) as [r|] eqn:E; [|congruence].
  rewrite (sent_bind _ _ _ _ E), (world_bind _ _ _ _ E), Hs, Hw.
  destruct r as [out|e]; simpl; [|auto].
  destruct (Project.Parameters out); simpl; auto.
Qed.

Lemma Get_outcome_cases s locator w r :
  outcome (Get s locator w) = Some r ->
  (exists p, r = (Some p, None)) \/ (exists e, r = (None, Some e)).
Proof.
  unfold Get.
  destruct (getWithFields_round_trip (T := Project.t B) (restHelper s)
              (Locator.String locator) (fields s) "project" w)
    as (Hs & Hw & Ho).
  destruct (outcome (restHelper.getWithFields (restHelper s) (Locator.String locator) (fields s) "project" w)) as [r0|] eqn:E; [|congruence].
  rewrite (outcome_bind _ _ _ _ E).
  destruct r0 as [out|e]; simpl.
  - destruct (Project.Parameters out); simpl; [|discriminate].
    intros [= <-]. left; eauto.
  - intros [= <-]. right; eauto.
Qed.

Lemma follows_step (c : bool) (step : Client B W (option error))
      (k : option error -> Client B W (ProjectResult B)) req L w :
  is_write req = true ->
  (c = true -> oneRoundTrip req step) ->
  (c = false -> forall w, step w = ret None w) ->
  (forall e w', sent (k (Some e) w') = []
                /\ forall out, outcome (k (Some e) w') <> Some (Some out, None)) ->
  (forall w', follows L (k None w')) ->
  follows ((if c then [req] else []) ++ L) (bind step k w).
Proof.
  intros Hw Ht Hf Hk HL. destruct c.
  - destruct (Ht eq_refl w) as (Hs & _ & Ho).
    destruct (outcome (step w)) as [[e|]|] eqn:E; [| |congruence].
    + destruct (Hk e (world (step w))) as (Hk1 & Hk2). split.
      * exists 1%nat. rewrite (sent_bind _ _ _ _ E), Hs, Hk1. simpl.
        unfold writes; simpl. rewrite Hw. reflexivity.
      * intros out Hout. rewrite (outcome_bind _ _ _ _ E) in Hout.
        exfalso. eapply Hk2; eauto.
    + destruct (HL (world (step w))) as ((n & Hn) & Hall). split.
      * exists (S n). rewrite (sent_bind _ _ _ _ E), Hs, writes_app, Hn.
        unfold writes at 1; simpl. rewrite Hw. reflexivity.
      * intros out Hout. rewrite (outcome_bind _ _ _ _ E) in Hout.
        rewrite (sent_bind _ _ _ _ E), Hs, writes_app, (Hall _ Hout).
        unfold writes; simpl. rewrite Hw. reflexivity.
  - simpl. specialize (Hf eq_refl).
    assert (E : outcome (step w) = Some None) by (rewrite Hf; reflexivity).
    assert (Es : sent (step w) = []) by (rewrite Hf; reflexivity).
    assert (Ew : world (step w) = w) by (rewrite Hf; reflexivity).
    destruct (HL w) as ((n & Hn) & Hall). split.
    + exists n. rewrite (sent_bind _ _ _ _ E), Es, Ew. simpl. exact Hn.
    + intros out Hout. rewrite (outcome_bind _ _ _ _ E), Ew in Hout.
      rewrite (sent_bind _ _ _ _ E), Es, Ew. simpl. eauto.
Qed.

Lemma updateStringField_round_trip s locator fieldName value desc :
  oneRoundTrip (stringFieldWrite s locator fieldName value)
               (updateStringField s locator fieldName value desc).
Proof.
  intros w. unfold updateStringField.
  destruct (putTextPlain_round_trip (restHelper s)
              (Locator.String locator +:+ "/" +:+ fieldName) value desc w)
    as (Hs & Hw & Ho).
  destruct (outcome (restHelper.putTextPlain (restHelper s)
              (Locator.String locator +:+ "/" +:+ fieldName) value desc w))
    as [r|] eqn:E; [|congruence].
  rewrite (sent_bind _ _ _ _ E), (world_bind _ _ _ _ E), (outcome_bind _ _ _ _ E).
  simpl. rewrite Hs, Hw, app_nil_r. unfold stringFieldWrite. repeat split; congruence.
Qed.

Lemma put_step_round_trip {T} `{Unmarshal T} r path data desc :
  oneRoundTrip (slingRequest (restHelper.sling r) PUT path [] jsonHeader data)
    (r0 <- restHelper.put (T := T) r path data desc;; ret (error_of r0)).
Proof.
  intros w.
  destruct (put_round_trip (T := T) r path data desc w) as (Hs & Hw & Ho).
  destruct (outcome (restHelper.put (T := T) r path data desc w)) as [r0|] eqn:E; [|congruence].
  rewrite (sent_bind _ _ _ _ E), (world_bind _ _ _ _ E), (outcome_bind _ _ _ _ E).
  simpl. rewrite Hs, Hw, app_nil_r. repeat split; congruence.
Qed.

Lemma follows_whenDiffers (c : bool) step rest (req : Request B) (L : list (Request B)) w :
  is_write req = true ->
  oneRoundTrip req step ->
  (forall w', follows L (rest w')) ->
  follows ((if c then [req] else []) ++ L) (whenDiffers c step rest w).
Proof.
  intros Hw Hs HL. unfold whenDiffers.
  destruct c.
  - unfold orReturn.
    apply (follows_step true step (fun err => match err with Some err => ret (None, Some err) | None => rest end) req L w); auto; try discriminate.
  - simpl. apply HL.
Qed.

Lemma follows_nil (r : Run B W (ProjectResult B)) :
  writes (sent r) = [] -> follows [] r.
Proof.
  intros E. split; [exists 0%nat; rewrite E; reflexivity | intros; exact E].
Qed.

Lemma follows_refresh s locator w :
  follows [] ((r <- Get s locator;;
               match r with
               | (_, Some err) => ret (None, Some err)
               | (out, None) => ret (out, None)
               end) w).
Proof.
  apply follows_nil.
  destruct (Get_sent s locator w) as (Hs & _).
  destruct (outcome (Get s locator w)) as [r|] eqn:E.
  - rewrite (sent_bind _ _ _ _ E), Hs. destruct r as [o [e|]]; reflexivity.
  - unfold bind. rewrite E. simpl. rewrite Hs. reflexivity.
Qed.

Lemma follows_bind_reads {A} (m : Client B W A) k L w a :
  outcome (m w) = Some a ->
  writes (sent (m w)) = [] ->
  follows L (k a (world (m w))) ->
  follows L (bind m k w).
Proof.
  intros E Hs ((n & Hn) & Hall). split.
  - exists n. rewrite (sent_bind _ _ _ _ E), writes_app, Hs. exact Hn.
  - intros out Hout. rewrite (outcome_bind _ _ _ _ E) in Hout.
    rewrite (sent_bind _ _ _ _ E), writes_app, Hs. simpl. eauto.
Qed.

Lemma follows_panic (L : list (Request B)) (w : W) : follows L (panic w).
Proof.
  split; [exists 0%nat; reflexivity | intros out; simpl; discriminate].
Qed.

Theorem updateProject_follows_plan s locator project isCreate w current :
  outcome (ProjectService.Get s locator w) = Some (Some current, None) ->
  follows (plannedWrites s locator current project isCreate)
          (ProjectService.updateProject s locator project isCreate w).
Proof.
  intros HG. destruct (Get_sent s locator w) as (Hs & Hw).
  unfold ProjectService.updateProject.
  apply (follows_bind_reads _ _ _ _ _ HG); [rewrite Hs; reflexivity|].
  simpl. generalize (world (ProjectService.Get s locator w)). clear w HG Hs Hw.
  unfold plannedWrites. intros w.
  apply follows_whenDiffers;
    [reflexivity | apply updateStringField_round_trip |]. clear w; intros w.
  apply follows_whenDiffers;
    [reflexivity | apply updateStringField_round_trip |]. clear w; intros w.
  apply follows_whenDiffers;
    [reflexivity | apply updateStringField_round_trip |]. clear w; intros w.
  apply (follows_step (parentDiffers current project isCreate)).
  - reflexivity.
  - unfold parentDiffers. intros Hc.
    destruct isCreate; simpl in *; [discriminate|].
    rewrite Hc. apply (put_step_round_trip (T := ProjectReference.t)).
  - unfold parentDiffers. intros Hc w'.
    destruct isCreate; simpl in *; [reflexivity|].
    rewrite Hc. reflexivity.
  - intros e w'. split; [reflexivity | intros out; simpl; congruence].
  - clear w; intros w. unfold parametersPresent, parametersWrite.
    destruct (Project.Parameters project) as [parameters|].
    + rewrite <- (app_nil_r (if Parameters.Count parameters >? 0 then _ else _)).
      apply follows_whenDiffers;
        [reflexivity | apply (put_step_round_trip (T := option Parameters.t)) |].
      intros w'. apply follows_refresh.
    + simpl. apply follows_panic.
Qed.

Lemma In_take {A} (x : A) k (l : list A) : In x (take k l) -> In x l.
Proof.
  revert l; induction k as [|k IH]; intros [|y l]; simpl; try tauto.
  intros [->|Hx]; auto.
Qed.



Lemma eqb_differs (a b : string) : negb (String.eqb a b) = true <-> a <> b.
Proof.
  rewrite Bool.negb_true_iff. split.
  - intros E. apply String.eqb_neq. exact E.
  - intros E. apply String.eqb_neq. exact E.
Qed.


End ProjectTheory.

(** ** The status contract of the helper *)

Section StatusContract.
Context {B W : Type} `{HTTPClient B W}.

Ltac responded Hans :=
  unfold responds in Hans; unfold bind, httpDo, ret; simpl;
  match type of Hans with
  | fst (Do ?req ?w) = _ =>
      destruct (Do req w) as [rr w']; simpl in Hans; subst rr; simpl
  end.

Lemma getWithFields_responded {T} `{Unmarshal T} r path fields desc w resp :
  responds w (slingRequest (restHelper.sling r) GET path (QueryStruct fields)
                           [] NoBody) resp ->
  outcome (restHelper.getWithFields (T := T) r path fields desc w)
  = Some (if StatusCode resp =? 200 then json_Decode (RespBody resp)
          else match RespBody resp with
               | Bytes body => Err (restHelper.handleRestError body (StatusCode resp) "GET" desc)
               | Broken e => Err e
               end).
Proof.
  intros Hans. unfold restHelper.getWithFields. responded Hans.
  destruct (StatusCode resp =? 200); [reflexivity|].
  destruct (RespBody resp); reflexivity.
Qed.

Lemma post_responded {T} `{Unmarshal T} r path data desc w resp :
  responds w (slingRequest (restHelper.sling r) POST path [] jsonHeader data)
           resp ->
  outcome (restHelper.post (T := T) r path data desc w)
  = Some (if (StatusCode resp =? 201) || (StatusCode resp =? 200)
          then json_Decode (RespBody resp)
          else match RespBody resp with
               | Bytes body => Err (restHelper.handleRestError body (StatusCode resp) "POST" desc)
               | Broken e => Err e
               end).
Proof.
  intros Hans. unfold restHelper.post. responded Hans.
  destruct ((StatusCode resp =? 201) || (StatusCode resp =? 200));
    [reflexivity|].
  destruct (RespBody resp); reflexivity.
Qed.

Lemma put_responded {T} `{Unmarshal T} r path data desc w resp :
  responds w (slingRequest (restHelper.sling r) PUT path [] jsonHeader data)
           resp ->
  outcome (restHelper.put (T := T) r path data desc w)
  = Some (if (StatusCode resp =? 201) || (StatusCode resp =? 200)
          then json_Decode (RespBody resp)
          else match RespBody resp with
               | Bytes body => Err (restHelper.handleRestError body (StatusCode resp) "PUT" desc)
               | Broken e => Err e
               end).
Proof.
  intros Hans. unfold restHelper.put. responded Hans.
  destruct ((StatusCode resp =? 201) || (StatusCode resp =? 200));
    [reflexivity|].
  destruct (RespBody resp); reflexivity.
Qed.

Lemma putTextPlain_responded r path data desc w resp :
  responds w (slingRequest (restHelper.sling r) PUT path [] textPlainHeader
                           (TextPlain data)) resp ->
  outcome (restHelper.putTextPlain r path data desc w)
  = Some (match RespBody resp with
          | Broken e => ("", Some e)
          | Bytes body =>
              if (StatusCode resp =? 201) || (StatusCode resp =? 200)
              then (body, None)
              else ("", Some (restHelper.handleRestError body (StatusCode resp) "PUT" desc))
          end).
Proof.
  intros Hans. unfold restHelper.putTextPlain. responded Hans.
  destruct (RespBody resp); simpl; [|reflexivity].
  destruct ((StatusCode resp =? 201) || (StatusCode resp =? 200)); reflexivity.
Qed.

Lemma delete_responded r path desc w resp :
  responds w (slingRequest (restHelper.sling r) DELETE path [] [] NoBody)
           resp ->
  outcome (restHelper.delete r path desc w)
  = Some (if (StatusCode resp =? 200) || (StatusCode resp =? 204) then None
          else match RespBody resp with
               | Bytes body =>
                   Some (restHelper.handleRestError body (StatusCode resp) "DELETE" desc)
               | Broken e => Some e
               end).
Proof.
  intros Hans. unfold restHelper.delete, restHelper.deleteByIDWithSling.
  responded Hans.
  destruct (StatusCode resp =? 204) eqn:E4, (StatusCode resp =? 200) eqn:E2;
    simpl; try reflexivity;
    destruct (RespBody resp); reflexivity.
Qed.

Lemma status_in_2 (s a b : Z) : (s =? a) || (s =? b) = true <-> s = b \/ s = a.
Proof. rewrite Bool.orb_true_iff, !Z.eqb_eq. tauto. Qed.

Lemma status_not_in_2 (s a b : Z) :
  (s =? a) || (s =? b) = false <-> ~ (s = b \/ s = a).
Proof. rewrite <- status_in_2. destruct ((s =? a) || (s =? b)); intuition congruence. Qed.

Lemma decoded_ok {T} (x : result T) :
  (exists v, Some x = Some (Ok v)) <-> exists v, x = Ok v.
Proof. split; intros [v E]; exists v; congruence. Qed.

Lemma decodingContract_intro {T} `{Unmarshal T} op desc (good : Z -> Prop)
      (c : bool) resp :
  (c = true <-> good (StatusCode resp)) ->
  decodingContract op desc good resp
    (Some (if c then json_Decode (RespBody resp)
           else match RespBody resp with
                | Bytes body => Err (restHelper.handleRestError body (StatusCode resp) op desc)
                | Broken e => Err e
                end)).
Proof.
  intros Hc. unfold decodingContract. destruct c.
  - assert (good (StatusCode resp)) by (apply Hc; reflexivity).
    rewrite decoded_ok. intuition.
  - assert (~ good (StatusCode resp)) by (rewrite <- Hc; discriminate).
    split; [|split]; [| tauto |].
    + split; [|tauto]. intros [v E]. destruct (RespBody resp); discriminate.
    + intros body _ ->. reflexivity.
Qed.

(** C3, as amended.  For every response the server gives: [getWithFields]
    and [get] succeed exactly when the status is 200 and the body decodes;
    [post] and [put] exactly when the status is 200 or 201 and the body
    decodes; on those statuses the call returns what the JSON decoder
    returns, a decode error included.  [putTextPlain] succeeds exactly when
    the status is 200 or 201 and the body can be read, and returns the body.
    [delete] succeeds exactly when the status is 200 or 204.  On every other
    status, with a readable body, each call returns the error formatted
    from the status code, the verb, the resource description and the raw
    body. *)
Theorem restHelper_status_contract :
  (forall T (U : Unmarshal T) r path fields desc w resp,
      responds w (slingRequest (restHelper.sling r) GET path
                               (QueryStruct fields) [] NoBody) resp ->
      decodingContract "GET" desc (fun s => s = 200) resp
        (outcome (restHelper.getWithFields (T := T) r path fields desc w)))
  /\ (forall T (U : Unmarshal T) r path desc w resp,
      responds w (slingRequest (restHelper.sling r) GET path [] [] NoBody)
               resp ->
      decodingContract "GET" desc (fun s => s = 200) resp
        (outcome (restHelper.get (T := T) r path desc w)))
  /\ (forall T (U : Unmarshal T) r path data desc w resp,
      responds w (slingRequest (restHelper.sling r) POST path [] jsonHeader
                               data) resp ->
      decodingContract "POST" desc (fun s => s = 200 \/ s = 201) resp
        (outcome (restHelper.post (T := T) r path data desc w)))
  /\ (forall T (U : Unmarshal T) r path data desc w resp,
      responds w (slingRequest (restHelper.sling r) PUT path [] jsonHeader
                               data) resp ->
      decodingContract "PUT" desc (fun s => s = 200 \/ s = 201) resp
        (outcome (restHelper.put (T := T) r path data desc w)))
  /\ (forall r path data desc w resp,
      responds w (slingRequest (restHelper.sling r) PUT path [] textPlainHeader
                               (TextPlain data)) resp ->
      let res := outcome (restHelper.putTextPlain r path data desc w) in
      ((exists text, res = Some (text, None))
       <-> (StatusCode resp = 200 \/ StatusCode resp = 201)
           /\ exists body, RespBody resp = Bytes body)
      /\ (forall body, RespBody resp = Bytes body ->
          (StatusCode resp = 200 \/ StatusCode resp = 201 ->
           res = Some (body, None))
          /\ (~ (StatusCode resp = 200 \/ StatusCode resp = 201) ->
              res = Some ("", Some (Errorf
                    ("Error '" +:+ Sprintf_d (StatusCode resp)
                     +:+ "' when performing '" +:+ "PUT"
                     +:+ "' operation - " +:+ desc +:+ ": " +:+ body))))))
  /\ (forall r path desc w resp,
      responds w (slingRequest (restHelper.sling r) DELETE path [] [] NoBody)
               resp ->
      let res := outcome (restHelper.delete r path desc w) in
      (res = Some None <-> StatusCode resp = 200 \/ StatusCode resp = 204)
      /\ (forall body, ~ (StatusCode resp = 200 \/ StatusCode resp = 204) ->
          RespBody resp = Bytes body ->
          res = Some (Some (Errorf
                ("Error '" +:+ Sprintf_d (StatusCode resp)
                 +:+ "' when performing '" +:+ "DELETE"
                 +:+ "' operation - " +:+ desc +:+ ": " +:+ body))))).
Proof.
  assert (Hget : forall T (U : Unmarshal T) r path fields desc w resp,
      responds w (slingRequest (restHelper.sling r) GET path
                               (QueryStruct fields) [] NoBody) resp ->
      decodingContract "GET" desc (fun s => s = 200) resp
        (outcome (restHelper.getWithFields (T := T) r path fields desc w))).
  { intros T U r path fields desc w resp Hans.
    rewrite (getWithFields_responded _ _ _ _ _ _ Hans).
    apply decodingContract_intro. apply Z.eqb_eq. }
  split; [exact Hget|].
  split; [intros T U r path desc w resp Hans;
          exact (Hget T U r path {| Fields := "" |} desc w resp Hans)|].
  split.
  { intros T U r path data desc w resp Hans.
    rewrite (post_responded _ _ _ _ _ _ Hans).
    apply decodingContract_intro. apply status_in_2. }
  split.
  { intros T U r path data desc w resp Hans.
    rewrite (put_responded _ _ _ _ _ _ Hans).
    apply decodingContract_intro. apply status_in_2. }
  split.
  { intros r path data desc w resp Hans res. subst res.
    rewrite (putTextPlain_responded _ _ _ _ _ _ Hans).
    destruct (RespBody resp) as [body|e].
    - destruct ((StatusCode resp =? 201) || (StatusCode resp =? 200)) eqn:E.
      + apply status_in_2 in E. split.
        * split; eauto.
        * intros body' [= <-]. split; [reflexivity | tauto].
      + apply status_not_in_2 in E. split.
        * split; [intros [t Ht]; discriminate | tauto].
        * intros body' [= <-]. split; [tauto | reflexivity].
    - split.
      + split; [intros [t Ht]; discriminate | intros [_ [b Hb]]; discriminate].
      + intros body' Hb. discriminate. }
  intros r path desc w resp Hans res. subst res.
  rewrite (delete_responded _ _ _ _ _ Hans).
  destruct ((StatusCode resp =? 200) || (StatusCode resp =? 204)) eqn:E.
  - apply status_in_2 in E. split; [|tauto]. split; [tauto | reflexivity].
  - apply status_not_in_2 in E. split.
    + split; [|tauto]. destruct (RespBody resp); discriminate.
    + intros body _ ->. reflexivity.
Qed.

End StatusContract.

(** ** Creation and retrieval *)

Section CreateAndGet.
Context {B W : Type} `{HTTPClient B W}.
Context `{Unmarshal (Project.t B)} `{Unmarshal ProjectReference.t}
        `{Unmarshal (option Parameters.t)}.

Lemma Create_post_fails s project w err :
  outcome (creationPost s project w) = Some (Err err) ->
  outcome (ProjectService.Create s project w) = Some (project, (None, Some err))
  /\ sent (ProjectService.Create s project w) = [createRequest s project].
Proof.
  intros E. unfold ProjectService.Create. unfold creationPost in E.
  rewrite (outcome_bind _ _ _ _ E), (sent_bind _ _ _ _ E). simpl.
  destruct (post_round_trip (T := Project.t B) (ProjectService.restHelper s) ""
              (JSONProject project) "project" w) as (Hs & _).
  rewrite Hs. auto.
Qed.

Lemma Create_post_succeeds s project w created :
  outcome (creationPost s project w) = Some (Ok created) ->
  let project' := Project.set_ID (Project.ID created) project in
  let update := ProjectService.updateProject s (LocatorID (Project.ID created))
                  project' true (world (creationPost s project w)) in
  sent (ProjectService.Create s project w) = createRequest s project :: sent update
  /\ world (ProjectService.Create s project w) = world update
  /\ outcome (ProjectService.Create s project w)
     = match outcome update with
       | None => None
       | Some (_, Some err) => Some (project', (None, Some err))
       | Some (updated, None) => Some (project', (updated, None))
       end.
Proof.
  intros E project' update. subst update project'.
  unfold ProjectService.Create. unfold creationPost in *.
  rewrite (outcome_bind _ _ _ _ E), (sent_bind _ _ _ _ E), (world_bind _ _ _ _ E).
  destruct (post_round_trip (T := Project.t B) (ProjectService.restHelper s) ""
              (JSONProject project) "project" w) as (Hs & _).
  rewrite Hs. unfold createRequest. cbv beta iota. unfold bind.
  match goal with
  | |- context [ProjectService.updateProject ?a ?b ?c ?d ?e] =>
      generalize (ProjectService.updateProject a b c d e)
  end.
  intros [[[updated [err|]]|] l w']; simpl; rewrite ?app_nil_r; auto.
Qed.

(** C9.  When the creation POST succeeds with [created], [Create] leaves
    the caller's project with [created.ID] as its [ID], whatever it returns:
    the reconciliation runs after the POST on the overwritten project, and
    when the reconciliation returns an error, [Create] returns that error
    and the caller's project is changed all the same. *)
Theorem Create_overwrites_ID s (project : Project.t B) w created :
  outcome (creationPost s project w) = Some (Ok created) ->
  let project' := Project.set_ID (Project.ID created) project in
  let update := ProjectService.updateProject s (LocatorID (Project.ID created))
                  project' true (world (creationPost s project w)) in
  (forall after res,
      outcome (ProjectService.Create s project w) = Some (after, res) ->
      after = project' /\ Project.ID after = Project.ID created)
  /\ sent (ProjectService.Create s project w)
     = createRequest s project :: sent update
  /\ (forall err,
      outcome update = Some (None, Some err) ->
      outcome (ProjectService.Create s project w)
      = Some (project', (None, Some err))).
Proof.
  intros E project' update.
  destruct (Create_post_succeeds s project w created E) as (Hs & _ & Ho).
  fold project' in Hs, Ho. fold update in Hs, Ho. split; [|split].
  - intros after res Hc. rewrite Ho in Hc.
    destruct (outcome update) as [[u [err|]]|];
      try discriminate; injection Hc as <- _; auto.
  - exact Hs.
  - intros err Hu. rewrite Ho, Hu. reflexivity.
Qed.

(** C6.  Every successful [Get], [GetByID], [GetByName] and [GetByUUID]
    returns the project decoded from the server's response with its
    parameters replaced by their non-inherited part: the returned
    parameters are those of the response that are not inherited, in order,
    and none of them is inherited. *)
Theorem Get_strips_inherited (m : Client B W (ProjectResult B)) s w p :
  (exists locator, m = ProjectService.Get s locator)
  \/ (exists id, m = ProjectService.GetByID s id)
  \/ (exists name, m = ProjectService.GetByName s name)
  \/ (exists uuid, m = ProjectService.GetByUUID s uuid) ->
  outcome (m w) = Some (Some p, None) ->
  exists locator out ps,
    outcome (restHelper.getWithFields (T := Project.t B)
               (ProjectService.restHelper s) (Locator.String locator)
               (ProjectService.fields s) "project" w) = Some (Ok out)
    /\ Project.Parameters out = Some ps
    /\ p = Project.set_Parameters (Some (Parameters.NonInherited ps)) out
    /\ Project.Parameters p = Some (Parameters.NonInherited ps)
    /\ Parameters.Items (Parameters.NonInherited ps)
       = List.filter (fun v => negb (Param.Inherited v)) (Parameters.Items ps)
    /\ (forall v, In v (Parameters.Items (Parameters.NonInherited ps)) <->
                  In v (Parameters.Items ps) /\ Param.Inherited v = false).
Proof.
  intros Hm Hp.
  assert (Hl : exists locator, m = ProjectService.Get s locator).
  { destruct Hm as [Hm|[[id ->]|[[name ->]|[uuid ->]]]]; eauto. }
  destruct Hl as [locator ->]. exists locator.
  unfold ProjectService.Get in Hp.
  destruct (getWithFields_round_trip (T := Project.t B) (ProjectService.restHelper s)
              (Locator.String locator) (ProjectService.fields s) "project" w)
    as (_ & _ & Ho).
  destruct (outcome (restHelper.getWithFields (ProjectService.restHelper s)
              (Locator.String locator) (ProjectService.fields s) "project" w))
    as [[out|err]|] eqn:E; [| |congruence].
  - rewrite (outcome_bind _ _ _ _ E) in Hp.
    destruct (Project.Parameters out) as [ps|] eqn:Eps; simpl in Hp; [|discriminate].
    injection Hp as <-. exists out, ps.
    split; [reflexivity|]. split; [exact Eps|]. split; [reflexivity|].
    split; [reflexivity|]. split; [reflexivity|].
    intros v. simpl. rewrite List.filter_In, Bool.negb_true_iff. tauto.
  - rewrite (outcome_bind _ _ _ _ E) in Hp. discriminate.
Qed.

End CreateAndGet.

(** ** Features and their properties *)

Section Features.








End Features.

(** ** The swallowed error, and what is not swallowed *)

Section Swallowed.
Context {B W : Type} `{HTTPClient B W}.
Context `{Unmarshal (Project.t B)} `{Unmarshal ProjectReference.t}
        `{Unmarshal (option Parameters.t)}.

(** X10.  Whatever the server and whatever the error: when the parent is
    the only field to write and its PUT fails, [updateProject] returns
    neither a project nor an error. *)
Lemma updateProject_swallows_parent_error s locator (project : Project.t B)
      w current err :
  outcome (ProjectService.Get s locator w) = Some (Some current, None) ->
  nameDiffers current project = false ->
  descriptionDiffers current project = false ->
  idDiffers current project = false ->
  parentDiffers current project false = true ->
  outcome (restHelper.put (T := ProjectReference.t)
             (ProjectService.restHelper s)
             (Project.ID project +:+ "/parentProject")
             (JSONProjectReference (Project.ParentProject project))
             "parent project" (world (ProjectService.Get s locator w)))
  = Some (Err err) ->
  outcome (ProjectService.updateProject s locator project false w)
  = Some (None, None).
Proof.
  intros HG Hn Hd Hi Hp Hput.
  unfold ProjectService.updateProject.
  rewrite (outcome_bind _ _ _ _ HG). simpl.
  unfold nameDiffers in Hn. unfold descriptionDiffers in Hd.
  unfold idDiffers in Hi. unfold parentDiffers in Hp. simpl in Hp.
  rewrite Hn, Hd, Hi. simpl. rewrite Hp.
  set (w1 := world (ProjectService.Get s locator w)) in *.
  assert (E : outcome ((r <- restHelper.put (T := ProjectReference.t)
                              (ProjectService.restHelper s)
                              (Project.ID project +:+ "/parentProject")
                              (JSONProjectReference (Project.ParentProject project))
                              "parent project";;
                        ret (error_of r)) w1) = Some (Some err)).
  { rewrite (outcome_bind _ _ _ _ Hput). reflexivity. }
  rewrite (outcome_bind _ _ _ _ E). reflexivity.
Qed.

(** The earlier revision writes the name first, whatever the server
    holds. *)
Lemma Part000_updateProject_writes_name_first
      (s : Part000.ProjectService.t) (project : Project.t B) isCreate w :
  exists rest,
    sent (Part000.ProjectService.updateProject s project isCreate w)
    = slingRequest (restHelper.sling (Part000.ProjectService.restHelper s)) PUT
                   (Project.ID project +:+ "/name") [] textPlainHeader
                   (TextPlain (Project.Name project)) :: rest.
Proof.
  unfold Part000.ProjectService.updateProject.
  destruct (putTextPlain_round_trip (Part000.ProjectService.restHelper s)
              (Project.ID project +:+ "/name") (Project.Name project)
              "project name" w) as (Hs & _ & Ho).
  unfold bind at 1. rewrite Hs.
  destruct (outcome (restHelper.putTextPlain
                       (Part000.ProjectService.restHelper s)
                       (Project.ID project +:+ "/name") (Project.Name project)
                       "project name" w)); [|congruence].
  simpl. eauto.
Qed.





(** Nothing is undone: every write [updateProject] sends is a write of the
    plan, carrying a desired value. *)
Lemma updateProject_writes_are_planned s locator (project : Project.t B)
      isCreate w current req :
  outcome (ProjectService.Get s locator w) = Some (Some current, None) ->
  In req (writes (sent (ProjectService.updateProject s locator project
                          isCreate w))) ->
  In req (plannedWrites s locator current project isCreate).
Proof.
  intros HG.
  destruct (updateProject_follows_plan s locator project isCreate w current HG)
    as ((k & ->) & _).
  apply In_take.
Qed.

(** The earlier revision strips the inherited parameters as well. *)
Lemma Part000_GetByID_strips_inherited (s : Part000.ProjectService.t) id w
      (p : Project.t B) :
  outcome (Part000.ProjectService.GetByID s id w) = Some (Some p, None) ->
  exists out ps,
    Project.Parameters out = Some ps
    /\ p = Project.set_Parameters (Some (Parameters.NonInherited ps)) out
    /\ forall v, In v (Parameters.Items (Parameters.NonInherited ps)) ->
                 Param.Inherited v = false.
Proof.
  unfold Part000.ProjectService.GetByID, Part000.ProjectService.getAndFilter.
  unfold bind.
  destruct (outcome (restHelper.get (Part000.ProjectService.restHelper s)
                       (Locator.String (LocatorID id)) "project" w))
    as [[out|err]|]; simpl; try discriminate.
  destruct (Project.Parameters out) as [ps|] eqn:E; simpl; [|discriminate].
  intros [= <-]. exists out, ps. split; [exact E|]. split; [reflexivity|].
  intros v. simpl. rewrite List.filter_In, Bool.negb_true_iff. tauto.
Qed.

End Swallowed.

(* ===================================================================== *)
(** * More properties of the code *)
(* ===================================================================== *)

(** ** The helper: errors as they come *)

Section HelperMore.
Context {B W : Type} `{HTTPClient B W}.

Ltac answered Hans :=
  unfold bind, httpDo, ret; simpl;
  match type of Hans with
  | fst (Do ?req ?w) = _ =>
      destruct (Do req w) as [rr w']; simpl in Hans; subst rr; simpl
  end.

(** X2.  When the HTTP client fails to deliver a response, every helper
    call returns the client's error as it is. *)
Theorem restHelper_transport_error_unmodified (r : restHelper.t) (e : error) :
  (forall T (U : Unmarshal T) path fields desc w,
      fst (Do (slingRequest (restHelper.sling r) GET path (QueryStruct fields)
                            [] NoBody) w) = Err e ->
      outcome (restHelper.getWithFields (T := T) r path fields desc w)
      = Some (Err e))
  /\ (forall T path desc (reader : string -> result T) w,
      fst (Do (slingRequest (restHelper.sling r) GET path [] [] NoBody) w)
      = Err e ->
      outcome (restHelper.getCustom r path desc reader w) = Some (Err e))
  /\ (forall T (U : Unmarshal T) path data desc w,
      fst (Do (slingRequest (restHelper.sling r) POST path [] jsonHeader data) w)
      = Err e ->
      outcome (restHelper.post (T := T) r path data desc w) = Some (Err e))
  /\ (forall T path data desc (reader : string -> result T) w,
      fst (Do (slingRequest (restHelper.sling r) POST path [] jsonHeader data) w)
      = Err e ->
      outcome (restHelper.postCustom r path data desc reader w) = Some (Err e))
  /\ (forall T (U : Unmarshal T) path data desc w,
      fst (Do (slingRequest (restHelper.sling r) PUT path [] jsonHeader data) w)
      = Err e ->
      outcome (restHelper.put (T := T) r path data desc w) = Some (Err e))
  /\ (forall T path data desc (reader : string -> result T) w,
      fst (Do (slingRequest (restHelper.sling r) PUT path [] jsonHeader data) w)
      = Err e ->
      outcome (restHelper.putCustom r path data desc reader w) = Some (Err e))
  /\ (forall path data desc w,
      fst (Do (slingRequest (restHelper.sling r) PUT path [] textPlainHeader
                            (TextPlain data)) w) = Err e ->
      outcome (restHelper.putTextPlain r path data desc w) = Some ("", Some e))
  /\ (forall sl path desc w,
      fst (Do (slingRequest sl DELETE path [] [] NoBody) w) = Err e ->
      outcome (restHelper.deleteByIDWithSling r sl path desc w)
      = Some (Some e)).
Proof.
  split; [|split; [|split; [|split; [|split; [|split; [|split]]]]]].
  - intros T U path fields desc w Hans. unfold restHelper.getWithFields.
    answered Hans. reflexivity.
  - intros T path desc reader w Hans. unfold restHelper.getCustom.
    answered Hans. reflexivity.
  - intros T U path data desc w Hans. unfold restHelper.post.
    answered Hans. reflexivity.
  - intros T path data desc reader w Hans. unfold restHelper.postCustom.
    answered Hans. reflexivity.
  - intros T U path data desc w Hans. unfold restHelper.put.
    answered Hans. reflexivity.
  - intros T path data desc reader w Hans. unfold restHelper.putCustom.
    answered Hans. reflexivity.
  - intros path data desc w Hans. unfold restHelper.putTextPlain.
    answered Hans. reflexivity.
  - intros sl path desc w Hans. unfold restHelper.deleteByIDWithSling.
    answered Hans. reflexivity.
Qed.

(** X3.  When the body of the response cannot be read to its end, the
    calls that read it whole return the read error: the calls with a custom
    reader and [putTextPlain] whatever the status, a status 200 included,
    and the JSON calls on every status that is not a success code of their
    verb, where they read the body for the text of the error.  On a success
    status the JSON calls do not read the body themselves: they return what
    the decoder makes of the stream.  A deletion answered 200 or 204
    succeeds all the same, since it never reads the body. *)
Theorem restHelper_unreadable_body (r : restHelper.t) (s : Z) (e : error) :
  let resp := {| StatusCode := s; RespBody := Broken e |} in
  (forall T (U : Unmarshal T) path fields desc w,
      responds w (slingRequest (restHelper.sling r) GET path (QueryStruct fields)
                               [] NoBody) resp ->
      outcome (restHelper.getWithFields (T := T) r path fields desc w)
      = Some (if s =? 200 then json_Decode (Broken e) else Err e))
  /\ (forall T path desc (reader : string -> result T) w,
      responds w (slingRequest (restHelper.sling r) GET path [] [] NoBody) resp ->
      outcome (restHelper.getCustom r path desc reader w) = Some (Err e))
  /\ (forall T (U : Unmarshal T) path data desc w,
      responds w (slingRequest (restHelper.sling r) POST path [] jsonHeader data)
               resp ->
      outcome (restHelper.post (T := T) r path data desc w)
      = Some (if (s =? 201) || (s =? 200) then json_Decode (Broken e)
              else Err e))
  /\ (forall T path data desc (reader : string -> result T) w,
      responds w (slingRequest (restHelper.sling r) POST path [] jsonHeader data)
               resp ->
      outcome (restHelper.postCustom r path data desc reader w) = Some (Err e))
  /\ (forall T (U : Unmarshal T) path data desc w,
      responds w (slingRequest (restHelper.sling r) PUT path [] jsonHeader data)
               resp ->
      outcome (restHelper.put (T := T) r path data desc w)
      = Some (if (s =? 201) || (s =? 200) then json_Decode (Broken e)
              else Err e))
  /\ (forall T path data desc (reader : string -> result T) w,
      responds w (slingRequest (restHelper.sling r) PUT path [] jsonHeader data)
               resp ->
      outcome (restHelper.putCustom r path data desc reader w) = Some (Err e))
  /\ (forall path data desc w,
      responds w (slingRequest (restHelper.sling r) PUT path [] textPlainHeader
                               (TextPlain data)) resp ->
      outcome (restHelper.putTextPlain r path data desc w) = Some ("", Some e))
  /\ (forall sl path desc w,
      responds w (slingRequest sl DELETE path [] [] NoBody) resp ->
      outcome (restHelper.deleteByIDWithSling r sl path desc w)
      = Some (if (s =? 200) || (s =? 204) then None else Some e)).
Proof.
  intros resp. unfold responds.
  split; [|split; [|split; [|split; [|split; [|split; [|split]]]]]].
  - intros T U path fields desc w Hans. unfold restHelper.getWithFields.
    answered Hans. destruct (s =? 200); reflexivity.
  - intros T path desc reader w Hans. unfold restHelper.getCustom.
    answered Hans. reflexivity.
  - intros T U path data desc w Hans. unfold restHelper.post.
    answered Hans. destruct ((s =? 201) || (s =? 200)); reflexivity.
  - intros T path data desc reader w Hans. unfold restHelper.postCustom.
    answered Hans. reflexivity.
  - intros T U path data desc w Hans. unfold restHelper.put.
    answered Hans. destruct ((s =? 201) || (s =? 200)); reflexivity.
  - intros T path data desc reader w Hans. unfold restHelper.putCustom.
    answered Hans. reflexivity.
  - intros path data desc w Hans. unfold restHelper.putTextPlain.
    answered Hans. reflexivity.
  - intros sl path desc w Hans. unfold restHelper.deleteByIDWithSling.
    answered Hans. destruct (s =? 204), (s =? 200); reflexivity.
Qed.

(** X5.  A call with a custom reader returns a value exactly when the
    status is a success code of the verb, the body can be read and the
    reader accepts it; on another status the reader has no say in the
    result, for [getCustom], [postCustom] and [putCustom] alike. *)
Theorem custom_reader_contract (r : restHelper.t) :
  (forall T path desc (reader : string -> result T) w resp v,
      responds w (slingRequest (restHelper.sling r) GET path [] [] NoBody) resp ->
      outcome (restHelper.getCustom r path desc reader w) = Some (Ok v)
      <-> StatusCode resp = 200
          /\ exists body, RespBody resp = Bytes body /\ reader body = Ok v)
  /\ (forall T path data desc (reader : string -> result T) w resp v,
      responds w (slingRequest (restHelper.sling r) POST path [] jsonHeader data)
               resp ->
      outcome (restHelper.postCustom r path data desc reader w) = Some (Ok v)
      <-> (StatusCode resp = 200 \/ StatusCode resp = 201)
          /\ exists body, RespBody resp = Bytes body /\ reader body = Ok v)
  /\ (forall T path data desc (reader : string -> result T) w resp v,
      responds w (slingRequest (restHelper.sling r) PUT path [] jsonHeader data)
               resp ->
      outcome (restHelper.putCustom r path data desc reader w) = Some (Ok v)
      <-> (StatusCode resp = 200 \/ StatusCode resp = 201)
          /\ exists body, RespBody resp = Bytes body /\ reader body = Ok v)
  /\ (forall T path desc (reader1 reader2 : string -> result T) w resp,
      responds w (slingRequest (restHelper.sling r) GET path [] [] NoBody) resp ->
      StatusCode resp <> 200 ->
      restHelper.getCustom r path desc reader1 w
      = restHelper.getCustom r path desc reader2 w)
  /\ (forall T path data desc (reader1 reader2 : string -> result T) w resp,
      responds w (slingRequest (restHelper.sling r) POST path [] jsonHeader data)
               resp ->
      StatusCode resp <> 200 -> StatusCode resp <> 201 ->
      restHelper.postCustom r path data desc reader1 w
      = restHelper.postCustom r path data desc reader2 w)
  /\ (forall T path data desc (reader1 reader2 : string -> result T) w resp,
      responds w (slingRequest (restHelper.sling r) PUT path [] jsonHeader data)
               resp ->
      StatusCode resp <> 200 -> StatusCode resp <> 201 ->
      restHelper.putCustom r path data desc reader1 w
      = restHelper.putCustom r path data desc reader2 w).
Proof.
  unfold responds.
  split; [|split; [|split; [|split; [|split]]]].
  - intros T path desc reader w resp v Hans. unfold restHelper.getCustom.
    answered Hans. destruct (RespBody resp) as [body|e]; simpl.
    + destruct (StatusCode resp =? 200) eqn:E.
      * apply Z.eqb_eq in E. destruct (reader body) as [v'|e'] eqn:Er; simpl.
        -- split.
           ++ intros [= ->]. split; [exact E|]. exists body. auto.
           ++ intros (_ & b & [= <-] & Hb). congruence.
        -- split; [discriminate|].
           intros (_ & b & [= <-] & Hb). congruence.
      * apply Z.eqb_neq in E. simpl. split; [discriminate | tauto].
    + split; [discriminate|]. intros (_ & b & Hb & _). discriminate.
  - intros T path data desc reader w resp v Hans. unfold restHelper.postCustom.
    answered Hans. destruct (RespBody resp) as [body|e]; simpl.
    + destruct ((StatusCode resp =? 201) || (StatusCode resp =? 200)) eqn:E.
      * apply status_in_2 in E. destruct (reader body) as [v'|e'] eqn:Er; simpl.
        -- split.
           ++ intros [= ->]. split; [exact E|]. exists body. auto.
           ++ intros (_ & b & [= <-] & Hb). congruence.
        -- split; [discriminate|].
           intros (_ & b & [= <-] & Hb). congruence.
      * apply status_not_in_2 in E. simpl. split; [discriminate | tauto].
    + split; [discriminate|]. intros (_ & b & Hb & _). discriminate.
  - intros T path data desc reader w resp v Hans. unfold restHelper.putCustom.
    answered Hans. destruct (RespBody resp) as [body|e]; simpl.
    + destruct ((StatusCode resp =? 201) || (StatusCode resp =? 200)) eqn:E.
      * apply status_in_2 in E. destruct (reader body) as [v'|e'] eqn:Er; simpl.
        -- split.
           ++ intros [= ->]. split; [exact E|]. exists body. auto.
           ++ intros (_ & b & [= <-] & Hb). congruence.
        -- split; [discriminate|].
           intros (_ & b & [= <-] & Hb). congruence.
      * apply status_not_in_2 in E. simpl. split; [discriminate | tauto].
    + split; [discriminate|]. intros (_ & b & Hb & _). discriminate.
  - intros T path desc reader1 reader2 w resp Hans Hs.
    unfold restHelper.getCustom, bind, httpDo, ret. simpl.
    destruct (Do _ w) as [rr w']. simpl in Hans. subst rr. simpl.
    destruct (RespBody resp) as [body|e]; simpl; [|reflexivity].
    destruct (StatusCode resp =? 200) eqn:E;
      [apply Z.eqb_eq in E; contradiction | reflexivity].
  - intros T path data desc reader1 reader2 w resp Hans H200 H201.
    unfold restHelper.postCustom, bind, httpDo, ret. simpl.
    destruct (Do _ w) as [rr w']. simpl in Hans. subst rr. simpl.
    destruct (RespBody resp) as [body|e]; simpl; [|reflexivity].
    destruct ((StatusCode resp =? 201) || (StatusCode resp =? 200)) eqn:E;
      [apply status_in_2 in E; tauto | reflexivity].
  - intros T path data desc reader1 reader2 w resp Hans H200 H201.
    unfold restHelper.putCustom, bind, httpDo, ret. simpl.
    destruct (Do _ w) as [rr w']. simpl in Hans. subst rr. simpl.
    destruct (RespBody resp) as [body|e]; simpl; [|reflexivity].
    destruct ((StatusCode resp =? 201) || (StatusCode resp =? 200)) eqn:E;
      [apply status_in_2 in E; tauto | reflexivity].
Qed.

End HelperMore.

Section AllSent.
Context {B W : Type} `{HTTPClient B W}.

Lemma allSent_ret {A} (P : Request B -> Prop) (a : A) :
  allSent (W := W) P (ret a).
Proof. intros w. constructor. Qed.

Lemma allSent_panic {A} (P : Request B -> Prop) :
  allSent (W := W) (A := A) P panic.
Proof. intros w. constructor. Qed.

Lemma allSent_bind {A C} (P : Request B -> Prop) (m : Client B W A)
      (k : A -> Client B W C) :
  allSent P m -> (forall a, allSent P (k a)) -> allSent P (bind m k).
Proof.
  intros Hm Hk w. unfold bind.
  destruct (outcome (m w)) as [a|]; simpl; [|apply Hm].
  apply Forall_app. split; [apply Hm | apply Hk].
Qed.

Lemma allSent_round_trip {A} (P : Request B -> Prop) req (m : Client B W A) :
  oneRoundTrip req m -> P req -> allSent P m.
Proof.
  intros Hm HP w. destruct (Hm w) as (-> & _). constructor; [exact HP|constructor].
Qed.

End AllSent.

Section ProjectMore.
Context {B W : Type} `{HTTPClient B W}.
Context `{Unmarshal (Project.t B)} `{Unmarshal ProjectReference.t}
        `{Unmarshal (option Parameters.t)}.

Lemma allSent_Get (P : Request B -> Prop) s locator :
  P (getRequest s locator) -> allSent P (ProjectService.Get s locator).
Proof.
  intros HP w. destruct (Get_sent s locator w) as (-> & _).
  constructor; [exact HP | constructor].
Qed.

Lemma allSent_whenDiffers (P : Request B -> Prop) (c : bool) step
      (rest : Client B W (ProjectResult B)) :
  (c = true -> allSent P step) -> allSent P rest ->
  allSent P (ProjectService.whenDiffers c step rest).
Proof.
  intros Hs Hr. unfold ProjectService.whenDiffers, ProjectService.orReturn.
  destruct c; [|exact Hr].
  apply allSent_bind; [auto|]. intros [e|]; [apply allSent_ret | exact Hr].
Qed.

Lemma allSent_updateProject (P : Request B -> Prop) s locator
      (project : Project.t B) isCreate :
  P (getRequest s locator) ->
  P (nameWrite s locator project) ->
  P (descriptionWrite s locator project) ->
  P (idWrite s locator project) ->
  (isCreate = false -> P (parentWrite s project)) ->
  P (parametersWrite s project) ->
  allSent P (ProjectService.updateProject s locator project isCreate).
Proof.
  intros Hg Hn Hd Hi Hp Hq. unfold ProjectService.updateProject.
  apply allSent_bind; [apply allSent_Get; exact Hg|].
  intros [[current|] [err|]]; try apply allSent_ret; try apply allSent_panic.
  apply allSent_whenDiffers;
    [intros _; apply (allSent_round_trip P _ _
                        (updateStringField_round_trip s locator _ _ _)); exact Hn|].
  apply allSent_whenDiffers;
    [intros _; apply (allSent_round_trip P _ _
                        (updateStringField_round_trip s locator _ _ _)); exact Hd|].
  apply allSent_whenDiffers;
    [intros _; apply (allSent_round_trip P _ _
                        (updateStringField_round_trip s locator _ _ _)); exact Hi|].
  apply allSent_bind.
  - destruct isCreate; simpl; [apply allSent_ret|].
    match goal with |- context [if ?c then _ else _] => destruct c end;
      [|apply allSent_ret].
    apply (allSent_round_trip P _ _
             (put_step_round_trip (T := ProjectReference.t) _ _ _ _)).
    apply Hp. reflexivity.
  - intros [e|]; [apply allSent_ret|].
    unfold parametersWrite in Hq.
    destruct (Project.Parameters project) as [parameters|];
      [|apply allSent_panic].
    apply allSent_whenDiffers.
    + intros _.
      apply (allSent_round_trip P _ _
               (put_step_round_trip (T := option Parameters.t) _ _ _ _)).
      exact Hq.
    + apply allSent_bind; [apply allSent_Get; exact Hg|].
      intros [out [err|]]; apply allSent_ret.
Qed.

Lemma allSent_Create (P : Request B -> Prop) s (project : Project.t B) :
  P (createRequest s project) ->
  (forall id, let project' := Project.set_ID id project in
     P (getRequest s (LocatorID id))
     /\ P (nameWrite s (LocatorID id) project')
     /\ P (descriptionWrite s (LocatorID id) project')
     /\ P (idWrite s (LocatorID id) project')
     /\ P (parametersWrite s project')) ->
  allSent P (ProjectService.Create s project).
Proof.
  intros Hc Hu. unfold ProjectService.Create.
  apply allSent_bind.
  - apply (allSent_round_trip P _ _
             (post_round_trip (T := Project.t B) _ _ _ _)). exact Hc.
  - intros [created|err]; [|apply allSent_ret].
    destruct (Hu (Project.ID created)) as (Ha & Hb & Hd & He & Hf).
    apply allSent_bind.
    + apply allSent_updateProject; auto. discriminate.
    + intros [u [e|]]; apply allSent_ret.
Qed.

(** X12.  [Create] never sends the parent PUT (the parent travels in the
    creation POST alone), sends no POST but the creation request, and
    deletes nothing. *)
Theorem Create_never_writes_parent s (project : Project.t B) :
  allSent carriesNoParent (ProjectService.Create s project)
  /\ allSent (fun r => Verb r = POST -> r = createRequest s project)
             (ProjectService.Create s project)
  /\ allSent (fun r => Verb r <> DELETE) (ProjectService.Create s project).
Proof.
  split; [|split].
  - apply allSent_Create; [intros ref; discriminate|].
    intros id project'. repeat split; intros ref; discriminate.
  - apply allSent_Create; [reflexivity|].
    intros id project'. repeat split; discriminate.
  - apply allSent_Create; [discriminate|].
    intros id project'. repeat split; discriminate.
Qed.

(** X6.  [Get] sends one GET, asking for the fields [$long,uuid], and
    writes nothing; it returns a project or an error, never both and never
    neither. *)
Theorem Get_reads_once s locator w :
  sent (ProjectService.Get s locator w) = [getRequest s locator]
  /\ Verb (getRequest (B := B) s locator) = GET
  /\ Query (getRequest (B := B) s locator) = [("fields", "$long,uuid")]
  /\ writes (sent (ProjectService.Get s locator w)) = []
  /\ (forall r, outcome (ProjectService.Get s locator w) = Some r ->
        (exists p, r = (Some p, None)) \/ (exists e, r = (None, Some e))).
Proof.
  destruct (Get_sent s locator w) as (Hs & _).
  split; [exact Hs|]. split; [reflexivity|]. split; [reflexivity|].
  split; [rewrite Hs; reflexivity|].
  intros r. apply Get_outcome_cases.
Qed.

(** X8.  When the fetch that opens an [Update] fails, [Update] returns
    that error and has sent nothing but the fetch. *)
Theorem Update_fetch_failure s (project : Project.t B) w e :
  outcome (ProjectService.Get s (LocatorUUID (Project.UUID project)) w)
  = Some (None, Some e) ->
  outcome (ProjectService.Update s project w) = Some (None, Some e)
  /\ sent (ProjectService.Update s project w)
     = [getRequest s (LocatorUUID (Project.UUID project))]
  /\ world (ProjectService.Update s project w)
     = snd (Do (getRequest s (LocatorUUID (Project.UUID project))) w).
Proof.
  intros HG. unfold ProjectService.Update, ProjectService.updateProject.
  destruct (Get_sent s (LocatorUUID (Project.UUID project)) w) as (Hs & Hw).
  rewrite (outcome_bind _ _ _ _ HG), (sent_bind _ _ _ _ HG),
    (world_bind _ _ _ _ HG). simpl. rewrite Hs, Hw. auto.
Qed.


(** What a run that returns a project has done last: it fetched that
    project. *)
Lemma refreshed_bind {A} s locator (m : Client B W A)
      (k : A -> Client B W (ProjectResult B)) w :
  (forall a w', refreshed s locator (k a w')) ->
  refreshed s locator (bind m k w).
Proof.
  intros Hk out Hout. unfold bind in *.
  destruct (outcome (m w)) as [a|] eqn:E; simpl in *; [|discriminate].
  destruct (Hk a (world (m w)) out Hout) as (w' & HG & Hw & before & Hs).
  exists w'. split; [exact HG|]. split; [exact Hw|].
  exists (sent (m w) ++ before). rewrite Hs. apply app_assoc.
Qed.

Lemma refreshed_ret_error s locator x (w : W) :
  refreshed s locator (ret (B := B) (None, x) w).
Proof. intros out Hout. discriminate. Qed.

Lemma refreshed_panic s locator (w : W) :
  refreshed s locator (panic (B := B) (A := ProjectResult B) w).
Proof. intros out Hout. discriminate. Qed.

Lemma refreshed_whenDiffers s locator (c : bool) step
      (rest : Client B W (ProjectResult B)) w :
  (forall w', refreshed s locator (rest w')) ->
  refreshed s locator (ProjectService.whenDiffers c step rest w).
Proof.
  intros Hr. unfold ProjectService.whenDiffers, ProjectService.orReturn.
  destruct c; [|apply Hr].
  apply refreshed_bind. intros [e|] w'; [apply refreshed_ret_error | apply Hr].
Qed.

Lemma refreshed_refresh s locator (w : W) :
  refreshed s locator
    ((r <- ProjectService.Get s locator;;
      match r with
      | (_, Some err) => ret (None, Some err)
      | (out, None) => ret (out, None)
      end) w).
Proof.
  intros out Hout.
  destruct (Get_sent s locator w) as (Hs & _).
  destruct (outcome (ProjectService.Get s locator w)) as [r|] eqn:E.
  - rewrite (outcome_bind _ _ _ _ E) in Hout.
    destruct r as [o [err|]]; simpl in Hout; [discriminate|].
    injection Hout as ->.
    exists w. split; [exact E|].
    rewrite (world_bind _ _ _ _ E), (sent_bind _ _ _ _ E). simpl.
    split; [reflexivity|]. exists []. rewrite Hs. reflexivity.
  - unfold bind in Hout. rewrite E in Hout. discriminate.
Qed.

(** X14.  A project returned by [Update] is not the caller's: it is the
    project a fetch returned, that fetch is the last request of the update
    and the update ends where the fetch ends. *)
Theorem Update_returns_the_refreshed_project s (project : Project.t B) w out :
  outcome (ProjectService.Update s project w) = Some (Some out, None) ->
  let locator := LocatorUUID (Project.UUID project) in
  exists w',
    outcome (ProjectService.Get s locator w') = Some (Some out, None)
    /\ world (ProjectService.Update s project w)
       = world (ProjectService.Get s locator w')
    /\ exists before,
        sent (ProjectService.Update s project w)
        = before ++ [getRequest s locator].
Proof.
  intros Hout locator. revert out Hout.
  change (refreshed s locator (ProjectService.Update s project w)).
  unfold ProjectService.Update, ProjectService.updateProject. fold locator.
  apply refreshed_bind. intros [[current|] [err|]] w1;
    try apply refreshed_ret_error; try apply refreshed_panic.
  apply refreshed_whenDiffers. intros w2.
  apply refreshed_whenDiffers. intros w3.
  apply refreshed_whenDiffers. intros w4.
  apply refreshed_bind. intros [e|] w5; [apply refreshed_ret_error|].
  destruct (Project.Parameters project) as [parameters|];
    [|apply refreshed_panic].
  apply refreshed_whenDiffers. intros w6. apply refreshed_refresh.
Qed.

(** X15.  The server holds another name and refuses the name PUT with a
    status other than 200 and 201: [Update] returns the error formatted
    from that status, the verb [PUT], the description [project name] and
    the body, and has sent the fetch and the name PUT and nothing more. *)
Theorem Update_name_failure_stops s (project : Project.t B) w current resp body :
  let locator := LocatorUUID (Project.UUID project) in
  outcome (ProjectService.Get s locator w) = Some (Some current, None) ->
  Project.Name current <> Project.Name project ->
  responds (world (ProjectService.Get s locator w))
           (nameWrite s locator project) resp ->
  RespBody resp = Bytes body ->
  StatusCode resp <> 200 -> StatusCode resp <> 201 ->
  outcome (ProjectService.Update s project w)
  = Some (None,
          Some (Errorf ("Error '" +:+ Sprintf_d (StatusCode resp)
                        +:+ "' when performing 'PUT' operation - project name: "
                        +:+ body)))
  /\ sent (ProjectService.Update s project w)
     = [getRequest s locator; nameWrite s locator project].
Proof.
  intros locator HG Hn Hans Hb H200 H201.
  unfold ProjectService.Update, ProjectService.updateProject. fold locator.
  destruct (Get_sent s locator w) as (Hs & _).
  rewrite (outcome_bind _ _ _ _ HG), (sent_bind _ _ _ _ HG), Hs. simpl.
  set (w1 := world (ProjectService.Get s locator w)) in *.
  apply eqb_differs in Hn. rewrite Hn.
  assert (Hput : outcome (restHelper.putTextPlain (ProjectService.restHelper s)
                   (Locator.String locator +:+ "/" +:+ "name")
                   (Project.Name project) "project name" w1)
                 = Some ("", Some (restHelper.handleRestError body
                                     (StatusCode resp) "PUT" "project name"))).
  { rewrite (putTextPlain_responded _ _ _ _ _ _ Hans), Hb.
    destruct ((StatusCode resp =? 201) || (StatusCode resp =? 200)) eqn:E;
      [|reflexivity].
    apply status_in_2 in E. tauto. }
  destruct (updateStringField_round_trip s locator "name" (Project.Name project)
              "project name" w1) as (Hss & _).
  assert (Hstep : outcome (ProjectService.updateStringField s locator "name"
                    (Project.Name project) "project name" w1)
                  = Some (Some (restHelper.handleRestError body
                                  (StatusCode resp) "PUT" "project name"))).
  { unfold ProjectService.updateStringField.
    rewrite (outcome_bind _ _ _ _ Hput). reflexivity. }
  split.
  - unfold ProjectService.whenDiffers at 1. unfold ProjectService.orReturn.
    rewrite (outcome_bind _ _ _ _ Hstep). reflexivity.
  - unfold ProjectService.whenDiffers at 1. unfold ProjectService.orReturn.
    rewrite (sent_bind _ _ _ _ Hstep), Hss. reflexivity.
Qed.

Lemma parentDiffers_SetParentProject (current p : Project.t B) parentID :
  parentDiffers current (SetParentProject p parentID) false = true
  <-> Project.ParentProjectID current <> parentID.
Proof.
  unfold parentDiffers. cbn [negb andb].
  assert (Hdec : bool_decide (Project.ParentProject
                                (SetParentProject p parentID) <> None) = true)
    by (apply bool_decide_eq_true; discriminate).
  rewrite Hdec, Bool.orb_true_r. cbn [andb].
  change (Project.ParentProjectID (SetParentProject p parentID))
    with parentID.
  apply eqb_differs.
Qed.

(** X16.  The parent reference of a project names the parent the project
    names: [NewProject] gives a reference exactly for a non-empty parent
    identifier, with that identifier; [SetParentProject] always gives one,
    with the new identifier, and changes no other field: each of the nine
    other fields of the project is as before.  On a project that went
    through [SetParentProject], the guard of the parent PUT is open exactly
    when the server's parent identifier differs from the new one, the
    empty identifier included. *)
Theorem parent_reference_agrees `{ZeroValue B} :
  (forall name description parentProjectID (p : Project.t B),
      NewProject name description parentProjectID = (Some p, None) ->
      parentAgrees p
      /\ (Project.ParentProject p = None <-> parentProjectID = ""))
  /\ (forall (p : Project.t B) parentID,
      let p' := SetParentProject p parentID in
      parentAgrees p'
      /\ Project.ParentProjectID p' = parentID
      /\ Project.ParentProject p'
         = Some {| ProjectReference.ID := parentID;
                   ProjectReference.Name := "";
                   ProjectReference.Description := "";
                   ProjectReference.Href := "";
                   ProjectReference.WebURL := "" |}
      /\ Project.Archived p' = Project.Archived p
      /\ Project.Description p' = Project.Description p
      /\ Project.Href p' = Project.Href p
      /\ Project.ID p' = Project.ID p
      /\ Project.Name p' = Project.Name p
      /\ Project.Parameters p' = Project.Parameters p
      /\ Project.WebURL p' = Project.WebURL p
      /\ Project.BuildTypes p' = Project.BuildTypes p
      /\ Project.UUID p' = Project.UUID p)
  /\ (forall (current p : Project.t B) parentID,
      parentDiffers current (SetParentProject p parentID) false = true
      <-> Project.ParentProjectID current <> parentID).
Proof.
  split; [|split].
  - intros name description parentProjectID p. unfold NewProject.
    destruct (String.eqb name ""); [discriminate|].
    intros [= <-]. unfold parentAgrees. simpl.
    destruct (String.eqb parentProjectID "") eqn:E; simpl.
    + apply String.eqb_eq in E. split; [discriminate | tauto].
    + apply String.eqb_neq in E. split.
      * intros r [= <-]. reflexivity.
      * split; [discriminate | contradiction].
  - intros p parentID p'. unfold parentAgrees. subst p'. simpl.
    repeat split; try discriminate. intros r [= <-]. reflexivity.
  - apply parentDiffers_SetParentProject.
Qed.

Lemma sent_bind_prefix {A C} (m : Client B W A) (k : A -> Client B W C) w :
  exists rest, sent (bind m k w) = sent (m w) ++ rest.
Proof.
  unfold bind. destruct (outcome (m w)); simpl; [eauto|].
  exists []. rewrite app_nil_r. reflexivity.
Qed.

(** X17.  [SetParentProject] followed by [Update], the other fields being
    as on the server and the server's parent being another one: the second
    request is the parent PUT, at the project's identifier, carrying a
    reference that holds the new parent identifier and nothing else. *)
Theorem SetParentProject_then_Update_writes_parent s (p : Project.t B)
        parentID w current :
  let project := SetParentProject p parentID in
  let locator := LocatorUUID (Project.UUID p) in
  outcome (ProjectService.Get s locator w) = Some (Some current, None) ->
  Project.Name current = Project.Name p ->
  Project.Description current = Project.Description p ->
  Project.ID current = Project.ID p ->
  Project.ParentProjectID current <> parentID ->
  exists rest,
    sent (ProjectService.Update s project w)
    = getRequest s locator
      :: slingRequest (restHelper.sling (ProjectService.restHelper s)) PUT
           (Project.ID p +:+ "/parentProject") []
           [("Content-Type", "application/json")]
           (JSONProjectReference
              (Some {| ProjectReference.ID := parentID;
                       ProjectReference.Name := "";
                       ProjectReference.Description := "";
                       ProjectReference.Href := "";
                       ProjectReference.WebURL := "" |}))
      :: rest.
Proof.
  intros project locator HG Hn Hd Hi Hp.
  assert (Hpd : parentDiffers current project false = true)
    by (apply parentDiffers_SetParentProject; exact Hp).
  unfold parentDiffers in Hpd. cbn [negb andb] in Hpd.
  unfold ProjectService.Update, ProjectService.updateProject.
  change (LocatorUUID (Project.UUID project)) with locator.
  destruct (Get_sent s locator w) as (Hs & _).
  rewrite (sent_bind _ _ _ _ HG), Hs. cbv beta iota.
  set (w1 := world (ProjectService.Get s locator w)).
  change (Project.Name project) with (Project.Name p).
  change (Project.Description project) with (Project.Description p).
  change (Project.ID project) with (Project.ID p).
  rewrite Hn, Hd, Hi, !String.eqb_refl. cbn [negb].
  unfold ProjectService.whenDiffers at 1 2 3. cbn [negb]. rewrite Hpd.
  match goal with
  | |- exists rest, _ ++ sent (bind ?m ?k w1) = _ =>
      destruct (sent_bind_prefix m k w1) as (rest & E);
      destruct (put_step_round_trip (T := ProjectReference.t)
                  (ProjectService.restHelper s)
                  (Project.ID p +:+ "/parentProject")
                  (JSONProjectReference (Project.ParentProject project))
                  "parent project" w1) as (Hss & _);
      exists rest; simpl; f_equal; etransitivity; [exact E|];
      etransitivity; [apply (f_equal (fun l => l ++ rest) Hss)|]
  end.
  reflexivity.
Qed.

(** X7.  [Delete] sends one DELETE at the locator of the identifier and
    returns no error exactly on status 200 or 204; on another status, with
    a readable body, it returns the formatted error for the resource
    [project]. *)
Theorem Delete_sends_one_delete s id w resp :
  let req := slingRequest (B := B) (ProjectService.sling s) DELETE
               (Locator.String (LocatorID id)) [] [] NoBody in
  responds w req resp ->
  sent (ProjectService.Delete s id w) = [req]
  /\ (outcome (ProjectService.Delete s id w) = Some None
      <-> StatusCode resp = 200 \/ StatusCode resp = 204)
  /\ (forall body, RespBody resp = Bytes body ->
      ~ (StatusCode resp = 200 \/ StatusCode resp = 204) ->
      outcome (ProjectService.Delete s id w)
      = Some (Some (Errorf ("Error '" +:+ Sprintf_d (StatusCode resp)
                            +:+ "' when performing 'DELETE' operation - project: "
                            +:+ body)))).
Proof.
  intros req Hans.
  unfold ProjectService.Delete, ProjectService.DeleteLocator.
  destruct (delete_round_trip (ProjectService.restHelper s)
              (ProjectService.sling s) (Locator.String (LocatorID id))
              "project" w) as (Hs & _).
  split; [exact Hs|].
  unfold restHelper.deleteByIDWithSling, bind, httpDo, ret. simpl.
  unfold responds in Hans. fold req.
  destruct (Do req w) as [rr w']. simpl in Hans. subst rr. simpl.
  destruct (StatusCode resp =? 204) eqn:E4; simpl.
  - apply Z.eqb_eq in E4. split; [tauto|]. intros body _ Hn. tauto.
  - apply Z.eqb_neq in E4.
    destruct (StatusCode resp =? 200) eqn:E2; simpl.
    + apply Z.eqb_eq in E2. split; [tauto|]. intros body _ Hn. tauto.
    + apply Z.eqb_neq in E2. split.
      * split; [|tauto]. destruct (RespBody resp); discriminate.
      * intros body -> _. reflexivity.
Qed.

End ProjectMore.

Section EarlierRevision.
Context {B W : Type} `{HTTPClient B W}.
Context `{Unmarshal (Project.t B)} `{Unmarshal ProjectReference.t}
        `{Unmarshal (option Parameters.t)}.

(** X18.  In the earlier revision, a successful [GetByID] or [GetByName]
    sent one GET at the locator, without a [fields] query, and returns the
    decoded project with its parameters replaced by what [NonInherited]
    makes of them. *)
Theorem Part000_Get_strips_inherited (s : Part000.ProjectService.t)
        (m : Client B W (ProjectResult B)) locator w (p : Project.t B) :
  (exists id, m = Part000.ProjectService.GetByID s id
              /\ locator = LocatorID id)
  \/ (exists name, m = Part000.ProjectService.GetByName s name
                   /\ locator = LocatorName name) ->
  outcome (m w) = Some (Some p, None) ->
  sent (m w)
  = [slingRequest (restHelper.sling (Part000.ProjectService.restHelper s)) GET
                  (Locator.String locator) [] [] NoBody]
  /\ exists out ps,
      outcome (restHelper.get (T := Project.t B)
                 (Part000.ProjectService.restHelper s)
                 (Locator.String locator) "project" w) = Some (Ok out)
      /\ Project.Parameters out = Some ps
      /\ p = Project.set_Parameters (Some (Parameters.NonInherited ps)) out.
Proof.
  intros Hm Hp.
  assert (E : m = Part000.ProjectService.getAndFilter s (Locator.String locator)).
  { destruct Hm as [(id & -> & ->)|(name & -> & ->)]; reflexivity. }
  subst m. unfold Part000.ProjectService.getAndFilter in *.
  destruct (getWithFields_round_trip (T := Project.t B)
              (Part000.ProjectService.restHelper s) (Locator.String locator)
              {| Fields := "" |} "project" w) as (Hs & _ & Ho).
  change (restHelper.getWithFields (Part000.ProjectService.restHelper s)
            (Locator.String locator) {| Fields := "" |} "project")
    with (restHelper.get (T := Project.t B)
            (Part000.ProjectService.restHelper s) (Locator.String locator)
            "project") in Hs, Ho.
  destruct (outcome (restHelper.get (Part000.ProjectService.restHelper s)
                       (Locator.String locator) "project" w))
    as [[out|err]|] eqn:E; [| |congruence].
  - rewrite (outcome_bind _ _ _ _ E) in Hp. rewrite (sent_bind _ _ _ _ E), Hs.
    destruct (Project.Parameters out) as [ps|] eqn:Eps; simpl in Hp;
      [|discriminate].
    injection Hp as <-. simpl. split; [reflexivity|].
    exists out, ps. split; [reflexivity|]. split; [exact Eps|]. reflexivity.
  - rewrite (outcome_bind _ _ _ _ E) in Hp. discriminate.
Qed.

(** X19.  The earlier revision of [updateProject] compares nothing before
    it writes: its first request is the name PUT at the project's
    identifier; when that PUT succeeds the second is the description PUT;
    when it fails the call returns its error and sends nothing more. *)
Theorem Part000_updateProject_writes_unconditionally
        (s : Part000.ProjectService.t) (project : Project.t B) isCreate w :
  let r := Part000.ProjectService.restHelper s in
  let nameCall := restHelper.putTextPlain r (Project.ID project +:+ "/name")
                    (Project.Name project) "project name" in
  let namePut := slingRequest (restHelper.sling r) PUT
                   (Project.ID project +:+ "/name") [] textPlainHeader
                   (TextPlain (Project.Name project)) in
  let descriptionPut := slingRequest (restHelper.sling r) PUT
                   (Project.ID project +:+ "/description") [] textPlainHeader
                   (TextPlain (Project.Description project)) in
  (exists rest,
      sent (Part000.ProjectService.updateProject s project isCreate w)
      = namePut :: rest)
  /\ (forall text,
      outcome (nameCall w) = Some (text, None) ->
      exists rest,
        sent (Part000.ProjectService.updateProject s project isCreate w)
        = namePut :: descriptionPut :: rest)
  /\ (forall text err,
      outcome (nameCall w) = Some (text, Some err) ->
      outcome (Part000.ProjectService.updateProject s project isCreate w)
      = Some (None, Some err)
      /\ sent (Part000.ProjectService.updateProject s project isCreate w)
         = [namePut]).
Proof.
  intros r nameCall namePut descriptionPut.
  destruct (putTextPlain_round_trip r (Project.ID project +:+ "/name")
              (Project.Name project) "project name" w) as (Hs & _ & Ho).
  fold nameCall in Hs, Ho. fold namePut in Hs.
  unfold Part000.ProjectService.updateProject. fold r. fold nameCall.
  split; [|split].
  - match goal with
    | |- exists rest, sent (bind nameCall ?k w) = _ =>
        destruct (sent_bind_prefix nameCall k w) as (rest' & E)
    end.
    rewrite Hs in E. exists rest'. exact E.
  - intros text E.
    match goal with
    | |- exists rest, sent (bind nameCall ?k w) = _ =>
        pose proof (sent_bind nameCall k w _ E) as E1
    end.
    rewrite Hs in E1. cbv beta iota in E1. cbn [snd] in E1.
    match type of E1 with
    | _ = _ ++ sent (bind ?m ?k ?w1) =>
        destruct (sent_bind_prefix m k w1) as (rest' & E2);
        destruct (putTextPlain_round_trip r
                    (Project.ID project +:+ "/description")
                    (Project.Description project) "project description" w1)
          as (E3 & _)
    end.
    rewrite E3 in E2. exists rest'.
    etransitivity; [exact E1|]. simpl. f_equal. exact E2.
  - intros text err E.
    rewrite (outcome_bind _ _ _ _ E), (sent_bind _ _ _ _ E), Hs. simpl. auto.
Qed.

(** X20.  The earlier revision of [Create] decodes a project reference
    from the creation response and overwrites the caller's [ID] with the
    reference's; the request after the POST is the name PUT at that
    identifier. *)
Theorem Part000_Create_overwrites_ID (s : Part000.ProjectService.t)
        (project : Project.t B) w created :
  outcome (restHelper.post (T := ProjectReference.t)
             (Part000.ProjectService.restHelper s) "" (JSONProject project)
             "project" w) = Some (Ok created) ->
  let project' := Project.set_ID (ProjectReference.ID created) project in
  (forall after res,
      outcome (Part000.ProjectService.Create s project w) = Some (after, res) ->
      after = project')
  /\ exists rest,
      sent (Part000.ProjectService.Create s project w)
      = slingRequest (restHelper.sling (Part000.ProjectService.restHelper s))
                     POST "" [] jsonHeader (JSONProject project)
        :: slingRequest (restHelper.sling (Part000.ProjectService.restHelper s))
                        PUT (ProjectReference.ID created +:+ "/name") []
                        textPlainHeader (TextPlain (Project.Name project))
        :: rest.
Proof.
  intros E project'. unfold Part000.ProjectService.Create.
  destruct (post_round_trip (T := ProjectReference.t)
              (Part000.ProjectService.restHelper s) "" (JSONProject project)
              "project" w) as (Hs & _).
  split.
  - intros after res. rewrite (outcome_bind _ _ _ _ E). cbv beta iota.
    fold project'. unfold bind.
    destruct (outcome (Part000.ProjectService.updateProject s project' true _))
      as [[u [err|]]|]; simpl; try discriminate; intros [= <- _]; reflexivity.
  - match goal with
    | |- exists rest, sent (bind ?m ?k w) = _ =>
        pose proof (sent_bind m k w _ E) as E1
    end.
    rewrite Hs in E1. cbv beta iota in E1. fold project' in E1.
    match type of E1 with
    | _ = _ ++ sent (bind ?m ?k ?w1) =>
        destruct (sent_bind_prefix m k w1) as (rest1 & E2);
        destruct (Part000_updateProject_writes_name_first s project' true w1)
          as (rest2 & E3)
    end.
    exists (rest2 ++ rest1).
    etransitivity; [exact E1|]. simpl. f_equal.
    etransitivity; [exact E2|].
    etransitivity; [apply (f_equal (fun l => l ++ rest1) E3)|]. reflexivity.
Qed.

End EarlierRevision.

Section AgentPools.
Context {B W : Type} `{HTTPClient B W}.
Context `{Unmarshal AgentPool.t} `{Unmarshal ListAgentPools.t}.

(** X21.  Each call of the agent pool service sends one request ([Get]
    and [Delete] at the locator of the numeric identifier, [Create] and
    [List] at the service root).  [Get], [Create] and [List] return a value
    or an error, never both and never neither; [Get] returns a pool exactly
    when the status is 200 and the body decodes to it; [Delete] returns no
    error exactly on status 200 or 204. *)
Theorem AgentPools_one_request_one_result (s : AgentPoolsService.t) :
  (forall id w,
      let req := slingRequest (B := B)
                   (restHelper.sling (AgentPoolsService.restHelper s)) GET
                   (Locator.String (LocatorIDInt id)) [] [] NoBody in
      sent (AgentPoolsService.Get s id w) = [req]
      /\ (forall resp pool,
            responds w req resp ->
            outcome (AgentPoolsService.Get s id w) = Some (Some pool, None)
            <-> StatusCode resp = 200
                /\ json_Decode (RespBody resp) = Ok pool)
      /\ exists r, outcome (AgentPoolsService.Get s id w) = Some r
                   /\ ((exists pool, r = (Some pool, None))
                       \/ (exists e, r = (None, Some e))))
  /\ (forall pool w,
      sent (AgentPoolsService.Create s pool w)
      = [slingRequest (restHelper.sling (AgentPoolsService.restHelper s)) POST
                      "" [] jsonHeader (JSONAgentPool pool)]
      /\ exists r, outcome (AgentPoolsService.Create s pool w) = Some r
                   /\ ((exists created, r = (Some created, None))
                       \/ (exists e, r = (None, Some e))))
  /\ (forall w,
      sent (AgentPoolsService.List s w)
      = [slingRequest (restHelper.sling (AgentPoolsService.restHelper s)) GET
                      "" [] [] NoBody]
      /\ exists r, outcome (AgentPoolsService.List s w) = Some r
                   /\ ((exists pools, r = (Some pools, None))
                       \/ (exists e, r = (None, Some e))))
  /\ (forall id w,
      let req := slingRequest (B := B)
                   (restHelper.sling (AgentPoolsService.restHelper s)) DELETE
                   (Locator.String (LocatorIDInt id)) [] [] NoBody in
      sent (AgentPoolsService.Delete s id w) = [req]
      /\ forall resp,
           responds w req resp ->
           outcome (AgentPoolsService.Delete s id w) = Some None
           <-> StatusCode resp = 200 \/ StatusCode resp = 204).
Proof.
  split; [|split; [|split]].
  - intros id w req. unfold AgentPoolsService.Get.
    destruct (getWithFields_round_trip (T := AgentPool.t)
                (AgentPoolsService.restHelper s)
                (Locator.String (LocatorIDInt id)) {| Fields := "" |}
                "Agent Pool" w) as (Hs & _ & Ho).
    change (QueryStruct {| Fields := "" |}) with (@nil (string * string)) in Hs.
    fold req in Hs.
    change (restHelper.getWithFields (AgentPoolsService.restHelper s)
              (Locator.String (LocatorIDInt id)) {| Fields := "" |} "Agent Pool")
      with (restHelper.get (T := AgentPool.t) (AgentPoolsService.restHelper s)
              (Locator.String (LocatorIDInt id)) "Agent Pool") in Hs, Ho.
    destruct (outcome (restHelper.get (AgentPoolsService.restHelper s)
                (Locator.String (LocatorIDInt id)) "Agent Pool" w))
      as [r|] eqn:E; [|congruence].
    rewrite (sent_bind _ _ _ _ E), (outcome_bind _ _ _ _ E), Hs.
    split; [destruct r; reflexivity|]. split.
    + intros resp pool Hans.
      pose proof (getWithFields_responded (T := AgentPool.t)
                    (AgentPoolsService.restHelper s)
                    (Locator.String (LocatorIDInt id)) {| Fields := "" |}
                    "Agent Pool" w resp Hans) as Hr.
      change (restHelper.getWithFields (AgentPoolsService.restHelper s)
                (Locator.String (LocatorIDInt id)) {| Fields := "" |}
                "Agent Pool")
        with (restHelper.get (T := AgentPool.t)
                (AgentPoolsService.restHelper s)
                (Locator.String (LocatorIDInt id)) "Agent Pool") in Hr.
      rewrite E in Hr. injection Hr as ->.
      destruct (StatusCode resp =? 200) eqn:E2.
      * apply Z.eqb_eq in E2.
        destruct (json_Decode (RespBody resp)) as [v|e]; simpl.
        -- split; [intros [= ->]; auto | intros [_ [= ->]]; reflexivity].
        -- split; [discriminate | intros [_ Hd]; discriminate].
      * apply Z.eqb_neq in E2.
        destruct (RespBody resp); simpl; (split; [discriminate | tauto]).
    + destruct r as [pool|e]; simpl; eexists; split; eauto.
  - intros pool w. unfold AgentPoolsService.Create.
    destruct (post_round_trip (T := AgentPool.t)
                (AgentPoolsService.restHelper s) "" (JSONAgentPool pool)
                "Agent Pool" w) as (Hs & _ & Ho).
    destruct (outcome (restHelper.post (AgentPoolsService.restHelper s) ""
                (JSONAgentPool pool) "Agent Pool" w)) as [r|] eqn:E;
      [|congruence].
    rewrite (sent_bind _ _ _ _ E), (outcome_bind _ _ _ _ E), Hs.
    destruct r as [created|e]; simpl; (split; [reflexivity|]);
      eexists; split; eauto.
  - intros w. unfold AgentPoolsService.List.
    destruct (getWithFields_round_trip (T := ListAgentPools.t)
                (AgentPoolsService.restHelper s) "" {| Fields := "" |}
                "Agent Pools" w) as (Hs & _ & Ho).
    change (QueryStruct {| Fields := "" |}) with (@nil (string * string)) in Hs.
    change (restHelper.getWithFields (AgentPoolsService.restHelper s) ""
              {| Fields := "" |} "Agent Pools")
      with (restHelper.get (T := ListAgentPools.t)
              (AgentPoolsService.restHelper s) "" "Agent Pools") in Hs, Ho.
    destruct (outcome (restHelper.get (AgentPoolsService.restHelper s) ""
                "Agent Pools" w)) as [r|] eqn:E; [|congruence].
    rewrite (sent_bind _ _ _ _ E), (outcome_bind _ _ _ _ E), Hs.
    destruct r as [pools|e]; simpl; (split; [reflexivity|]);
      eexists; split; eauto.
  - intros id w req. unfold AgentPoolsService.Delete.
    destruct (delete_round_trip (AgentPoolsService.restHelper s)
                (restHelper.sling (AgentPoolsService.restHelper s))
                (Locator.String (LocatorIDInt id)) "Agent Pool" w)
      as (Hs & _ & Ho).
    fold req in Hs.
    change (restHelper.deleteByIDWithSling (AgentPoolsService.restHelper s)
              (restHelper.sling (AgentPoolsService.restHelper s))
              (Locator.String (LocatorIDInt id)) "Agent Pool")
      with (restHelper.delete (B := B) (AgentPoolsService.restHelper s)
              (Locator.String (LocatorIDInt id)) "Agent Pool") in Hs, Ho.
    destruct (outcome (restHelper.delete (AgentPoolsService.restHelper s)
                (Locator.String (LocatorIDInt id)) "Agent Pool" w))
      as [r|] eqn:E; [|congruence].
    rewrite (sent_bind _ _ _ _ E), (outcome_bind _ _ _ _ E), Hs.
    split; [destruct r; reflexivity|].
    intros resp Hans.
    pose proof (delete_responded (AgentPoolsService.restHelper s)
                  (Locator.String (LocatorIDInt id)) "Agent Pool" w resp Hans)
      as Hr.
    rewrite E in Hr. injection Hr as ->.
    destruct ((StatusCode resp =? 200) || (StatusCode resp =? 204)) eqn:E2.
    + apply status_in_2 in E2. simpl. tauto.
    + apply status_not_in_2 in E2.
      destruct (RespBody resp); simpl; (split; [discriminate | tauto]).
Qed.

End AgentPools.

Section FeaturesMore.

(** X22.  [UnmarshalJSON] on a text that does not decode returns the
    decode error and leaves the feature and the store as they were.  On
    success it keeps the build type identifier of the receiver, takes the
    identifier and the [disabled] flag (false when absent) from the text,
    and puts the decoded properties in a new collection: every collection
    of the store, the receiver's former one included, is as before. *)
Theorem UnmarshalJSON_frame `{Unmarshal buildFeatureJSON.t}
        (f : FeatureGolang.t) data (h : store) :
  (forall msg,
      unmarshal data = inr msg ->
      FeatureGolang.UnmarshalJSON f data h = Some (Some (DecodeError msg), f, h))
  /\ (forall err f' h',
      FeatureGolang.UnmarshalJSON f data h = Some (err, f', h') ->
      FeatureGolang.buildTypeID f' = FeatureGolang.buildTypeID f
      /\ (forall l ps, h !! l = Some ps -> h' !! l = Some ps)
      /\ (err <> None -> f' = f /\ h' = h)
      /\ (err = None ->
          exists aux auxps l,
            unmarshal data = inl aux
            /\ buildFeatureJSON.Properties aux = Some auxps
            /\ FeatureGolang.id f' = buildFeatureJSON.ID aux
            /\ FeatureGolang.disabled f'
               = default false (buildFeatureJSON.Disabled aux)
            /\ FeatureGolang.properties f' = Some l
            /\ h !! l = None
            /\ h' !! l = Some (NewProperties (Properties.Items auxps)))).
Proof.
  split.
  - intros msg E. unfold FeatureGolang.UnmarshalJSON, json_Unmarshal.
    rewrite E. reflexivity.
  - intros err f' h'. unfold FeatureGolang.UnmarshalJSON, json_Unmarshal.
    destruct (unmarshal data) as [aux|msg] eqn:E.
    + assert (Hfresh : h !! fresh (dom h) = None)
        by (apply not_elem_of_dom, is_fresh).
      destruct (buildFeatureJSON.Disabled aux) as [d|] eqn:Ed;
        destruct (buildFeatureJSON.Properties aux) as [auxps|] eqn:Ep;
        simpl; try discriminate; intros [= <- <- <-]; simpl;
        (split; [reflexivity|]);
        (split; [intros l ps Hl; rewrite lookup_insert_ne; [exact Hl|];
                 intros <-; congruence|]);
        (split; [congruence|]);
        intros _; exists aux, auxps, (fresh (dom h));
        rewrite Ed, Ep, lookup_insert_eq; auto 10.
    + intros [= <- <- <-].
      split; [reflexivity|]. split; [auto|]. split; [auto|]. discriminate.
Qed.

(** X23.  When the codec reads back what it wrote, decoding the encoding
    of a golang feature [f] into a feature [g] gives [g] the identifier and
    the [disabled] flag of [f] and a collection of its own, built from the
    items [f] holds once [MarshalJSON] has called [AddOrReplaceValue] on
    them; the build type identifier is not part of the text, [g] keeps its
    own. *)
Theorem MarshalJSON_then_UnmarshalJSON `{Properties.Updater}
        `{Marshal buildFeatureJSON.t} `{Unmarshal buildFeatureJSON.t}
        (f g : FeatureGolang.t) (h h1 : store) bytes out :
  FeatureGolang.MarshalJSON_out f h = Some (out, h1) ->
  marshal out = inl bytes ->
  unmarshal bytes = inl out ->
  FeatureGolang.MarshalJSON f h = Some ((bytes, None), h1)
  /\ exists g' h2 l l' ps0,
      let ps := Properties.AddOrReplaceValue ps0 "test.format" "json" in
      FeatureGolang.UnmarshalJSON g bytes h1 = Some (None, g', h2)
      /\ FeatureGolang.id g' = FeatureGolang.id f
      /\ FeatureGolang.disabled g' = FeatureGolang.disabled f
      /\ FeatureGolang.buildTypeID g' = FeatureGolang.buildTypeID g
      /\ FeatureGolang.properties f = Some l
      /\ FeatureGolang.properties g' = Some l'
      /\ l' <> l
      /\ h !! l = Some ps0
      /\ h2 !! l = Some ps
      /\ h2 !! l' = Some (NewProperties (Properties.Items ps)).
Proof.
  intros Hout Hm Hu.
  split.
  { unfold FeatureGolang.MarshalJSON, json_Marshal. rewrite Hout, Hm.
    reflexivity. }
  unfold FeatureGolang.MarshalJSON_out in Hout.
  destruct (FeatureGolang.properties f) as [l|] eqn:El; [|discriminate].
  destruct (h !! l) as [ps0|] eqn:E0; [|discriminate].
  injection Hout as <- <-.
  set (ps := Properties.AddOrReplaceValue ps0 "test.format" "json") in *.
  set (h1 := <[l := ps]> h) in *.
  assert (Hl : h1 !! l = Some ps) by apply lookup_insert_eq.
  assert (Hfresh : h1 !! fresh (dom h1) = None)
    by (apply not_elem_of_dom, is_fresh).
  exists {| FeatureGolang.id := FeatureGolang.id f;
            FeatureGolang.disabled := FeatureGolang.disabled f;
            FeatureGolang.buildTypeID := FeatureGolang.buildTypeID g;
            FeatureGolang.properties := Some (fresh (dom h1)) |},
         (<[fresh (dom h1) := NewProperties (Properties.Items ps)]> h1),
         l, (fresh (dom h1)), ps0.
  cbv zeta.
  split.
  { unfold FeatureGolang.UnmarshalJSON, json_Unmarshal. rewrite Hu. simpl.
    rewrite Hl. reflexivity. }
  split; [reflexivity|]. split; [reflexivity|]. split; [reflexivity|].
  split; [reflexivity|]. split; [reflexivity|].
  assert (Hne : fresh (dom h1) <> l) by (intros Heq; congruence).
  split; [exact Hne|].
  split; [exact E0|].
  split; [rewrite lookup_insert_ne; [exact Hl | exact Hne]|].
  apply lookup_insert_eq.
Qed.

End FeaturesMore.

Section CreateFailure.
Context {B W : Type} `{HTTPClient B W}.
Context `{Unmarshal (Project.t B)} `{Unmarshal ProjectReference.t}
        `{Unmarshal (option Parameters.t)}.

(** X11.  When the creation POST fails, [Create] returns that error, has
    sent the POST and nothing else, and leaves the caller's project as it
    was; the failure of a POST answered with a status other than 200 and
    201 is the formatted error for the resource [project]. *)
Theorem Create_stops_when_post_fails s (project : Project.t B) w :
  (forall err,
      outcome (creationPost s project w) = Some (Err err) ->
      outcome (ProjectService.Create s project w)
      = Some (project, (None, Some err))
      /\ sent (ProjectService.Create s project w) = [createRequest s project]
      /\ world (ProjectService.Create s project w)
         = snd (Do (createRequest s project) w))
  /\ (forall resp body,
      responds w (createRequest s project) resp ->
      RespBody resp = Bytes body ->
      StatusCode resp <> 200 -> StatusCode resp <> 201 ->
      outcome (ProjectService.Create s project w)
      = Some (project,
              (None,
               Some (Errorf ("Error '" +:+ Sprintf_d (StatusCode resp)
                             +:+ "' when performing 'POST' operation - project: "
                             +:+ body))))).
Proof.
  assert (Hfail : forall err,
      outcome (creationPost s project w) = Some (Err err) ->
      outcome (ProjectService.Create s project w)
      = Some (project, (None, Some err))
      /\ sent (ProjectService.Create s project w) = [createRequest s project]
      /\ world (ProjectService.Create s project w)
         = snd (Do (createRequest s project) w)).
  { intros err E.
    destruct (Create_post_fails s project w err E) as (Ho & Hs).
    split; [exact Ho|]. split; [exact Hs|].
    unfold ProjectService.Create. unfold creationPost in E.
    rewrite (world_bind _ _ _ _ E). simpl.
    apply (post_round_trip (T := Project.t B)). }
  split; [exact Hfail|].
  intros resp body Hans Hb H200 H201.
  apply Hfail. unfold creationPost.
  rewrite (post_responded _ _ _ _ _ _ Hans), Hb.
  destruct ((StatusCode resp =? 201) || (StatusCode resp =? 200)) eqn:E;
    [|reflexivity].
  apply status_in_2 in E. tauto.
Qed.

End CreateFailure.

(** ** Creation: the POST, then the reconciliation *)

Section CreateReconciles.
Context {B W : Type} `{HTTPClient B W}.
Context `{Unmarshal (Project.t B)} `{Unmarshal ProjectReference.t}
        `{Unmarshal (option Parameters.t)}.

Lemma updateProject_refreshed s locator (project : Project.t B) isCreate w :
  refreshed s locator (ProjectService.updateProject s locator project isCreate w).
Proof.
  unfold ProjectService.updateProject.
  apply refreshed_bind. intros [[current|] [err|]] w1;
    try apply refreshed_ret_error; try apply refreshed_panic.
  apply refreshed_whenDiffers. intros w2.
  apply refreshed_whenDiffers. intros w3.
  apply refreshed_whenDiffers. intros w4.
  apply refreshed_bind. intros [e|] w5; [apply refreshed_ret_error|].
  destruct (Project.Parameters project) as [parameters|];
    [|apply refreshed_panic].
  apply refreshed_whenDiffers. intros w6. apply refreshed_refresh.
Qed.

Lemma updateProject_fetch_fails s locator (project : Project.t B) isCreate w e :
  outcome (ProjectService.Get s locator w) = Some (None, Some e) ->
  outcome (ProjectService.updateProject s locator project isCreate w)
  = Some (None, Some e)
  /\ sent (ProjectService.updateProject s locator project isCreate w)
     = [getRequest s locator].
Proof.
  intros HG. unfold ProjectService.updateProject.
  destruct (Get_sent s locator w) as (Hs & _).
  rewrite (outcome_bind _ _ _ _ HG), (sent_bind _ _ _ _ HG). simpl.
  rewrite Hs. auto.
Qed.

Lemma updateProject_starts_with_fetch s locator (project : Project.t B)
      isCreate w :
  exists rest,
    sent (ProjectService.updateProject s locator project isCreate w)
    = getRequest s locator :: rest.
Proof.
  unfold ProjectService.updateProject.
  destruct (Get_sent s locator w) as (HGs & _).
  unfold bind at 1. rewrite HGs.
  destruct (outcome (ProjectService.Get s locator w)); simpl; eauto.
Qed.

(** The plan of a creation is the plan of an update without the parent. *)
Lemma plannedWrites_on_creation s locator (current project : Project.t B) :
  plannedWrites s locator current project true
  = (if nameDiffers current project then [nameWrite s locator project] else [])
    ++ (if descriptionDiffers current project
        then [descriptionWrite s locator project] else [])
    ++ (if idDiffers current project then [idWrite s locator project] else [])
    ++ (if parametersPresent project then [parametersWrite s project] else []).
Proof. reflexivity. Qed.

(** C5, as amended.  The validation is [NewProject]'s: it returns an error
    exactly when the name is empty, and then no project; it is a function
    of its three arguments alone, so no request is sent.  [Create] itself
    validates nothing: whatever project it is given, an empty name
    included, its first request is the creation POST of that project.  When
    the POST succeeds with [created], [Create] goes on with the
    reconciliation at the locator of [created.ID], on the project with
    that [ID]: a GET; then, in this order, the PUT of the name, of the
    description and of the identifier, each only when the fetched value
    differs, and the PUT of the parameters when the project has some; then
    a GET again, whose project [Create] returns.  The parent is never
    written on creation.  The writes sent are an initial segment of this
    plan, and the whole plan when [Create] returns a project; a failing
    first GET is returned as it is, nothing being written. *)
Theorem Create_posts_then_reconciles `{ZeroValue B} :
  (forall name description parentProjectID,
      (snd (NewProject (B := B) name description parentProjectID) <> None
       <-> name = "")
      /\ (name = "" ->
          NewProject (B := B) name description parentProjectID
          = (None, Some (Errorf "name is required")))
      /\ (name <> "" ->
          exists p, NewProject (B := B) name description parentProjectID
                    = (Some p, None)
                    /\ Project.Name p = name
                    /\ Project.Description p = description
                    /\ Project.ParentProjectID p = parentProjectID
                    /\ Project.Parameters p = Some NewParametersEmpty))
  /\ (forall s (project : Project.t B) w,
      exists rest, sent (ProjectService.Create s project w)
                   = createRequest s project :: rest)
  /\ (forall s (project : Project.t B) w created,
      outcome (creationPost s project w) = Some (Ok created) ->
      let locator := LocatorID (Project.ID created) in
      let project' := Project.set_ID (Project.ID created) project in
      let w1 := world (creationPost s project w) in
      let run := ProjectService.Create s project w in
      (exists rest,
          sent run = createRequest s project :: getRequest s locator :: rest)
      /\ ~ In (parentWrite s project') (sent run)
      /\ (forall err,
          outcome (ProjectService.Get s locator w1) = Some (None, Some err) ->
          outcome run = Some (project', (None, Some err))
          /\ sent run = [createRequest s project; getRequest s locator])
      /\ (forall current,
          outcome (ProjectService.Get s locator w1)
          = Some (Some current, None) ->
          let plan :=
            (if nameDiffers current project'
             then [nameWrite s locator project'] else [])
            ++ (if descriptionDiffers current project'
                then [descriptionWrite s locator project'] else [])
            ++ (if idDiffers current project'
                then [idWrite s locator project'] else [])
            ++ (if parametersPresent project'
                then [parametersWrite s project'] else []) in
          (exists k,
              writes (sent run) = createRequest s project :: take k plan)
          /\ (forall after out,
              outcome run = Some (after, (Some out, None)) ->
              writes (sent run) = createRequest s project :: plan
              /\ exists w' before,
                  outcome (ProjectService.Get s locator w')
                  = Some (Some out, None)
                  /\ sent run = before ++ [getRequest s locator]))).
Proof.
  split; [|split].
  - intros name description parentProjectID. unfold NewProject.
    destruct (String.eqb name "") eqn:E.
    + apply String.eqb_eq in E. simpl. split; [|split]; try tauto.
      split; [auto | discriminate].
    + apply String.eqb_neq in E. simpl. split; [|split]; try tauto.
      intros _. eexists. split; [reflexivity|]. simpl. auto.
  - intros s project w.
    destruct (post_round_trip (T := Project.t B) (ProjectService.restHelper s) ""
                (JSONProject project) "project" w) as (Hs & _ & Ho).
    fold (creationPost s project) in Hs, Ho.
    destruct (outcome (creationPost s project w)) as [[created|err]|] eqn:E;
      [| |congruence].
    + destruct (Create_post_succeeds s project w created E) as (-> & _). eauto.
    + destruct (Create_post_fails s project w err E) as (_ & ->). eauto.
  - intros s project w created E locator project' w1 run.
    destruct (Create_post_succeeds s project w created E) as (Hs & _ & Ho).
    fold project' in Hs, Ho. fold locator in Hs, Ho. fold w1 in Hs, Ho.
    fold run in Hs, Ho.
    set (update := ProjectService.updateProject s locator project' true w1)
      in *.
    split; [|split; [|split]].
    + destruct (updateProject_starts_with_fetch s locator project' true w1)
        as (rest & Hr).
      fold update in Hr. exists rest. rewrite Hs, Hr. reflexivity.
    + intros Hin.
      assert (Hall : allSent carriesNoParent (ProjectService.Create s project)).
      { apply allSent_Create; [intros ref; discriminate|].
        intros id p'. repeat split; intros ref; discriminate. }
      specialize (Hall w). rewrite List.Forall_forall in Hall.
      exact (Hall _ Hin (Project.ParentProject project') eq_refl).
    + intros err HG.
      destruct (updateProject_fetch_fails s locator project' true w1 err HG)
        as (Hou & Hsu).
      fold update in Hou, Hsu. rewrite Ho, Hou, Hs, Hsu. auto.
    + intros current HG plan.
      destruct (updateProject_follows_plan s locator project' true w1 current HG)
        as ((k & Hk) & Hall).
      fold update in Hk, Hall.
      rewrite plannedWrites_on_creation in Hk, Hall. fold plan in Hk, Hall.
      assert (Hw : writes (sent run)
                   = createRequest s project :: writes (sent update))
        by (rewrite Hs; reflexivity).
      split; [exists k; rewrite Hw, Hk; reflexivity|].
      intros after out Hout.
      assert (Hu : outcome update = Some (Some out, None)).
      { rewrite Ho in Hout.
        destruct (outcome update) as [[u [e|]]|]; simpl in Hout;
          [discriminate | | discriminate].
        injection Hout as _ ->. reflexivity. }
      split; [rewrite Hw, (Hall out Hu); reflexivity|].
      destruct (updateProject_refreshed s locator project' true w1 out Hu)
        as (w' & HG' & _ & before & Hb).
      fold update in Hb.
      exists w', (createRequest s project :: before).
      split; [exact HG'|]. rewrite Hs, Hb. reflexivity.
Qed.

End CreateReconciles.

(* ===================================================================== *)
(** * The properties at work *)
(* ===================================================================== *)

Module Examples.
Import Demo.



(** C2, the failing input: the caller moves the project under another
    parent and the server answers the parent PUT with status 500.  The
    helper reports the failure; [Update] returns neither a project nor an
    error. *)
Theorem Update_parent_failure_returns_nil_nil :
  outcome (restHelper.put (T := ProjectReference.t)
             (ProjectService.restHelper projects) "Demo/parentProject"
             (JSONProjectReference (Project.ParentProject moved))
             "parent project" [fail500])
  = Some (Err (Errorf ("Error '500' when performing 'PUT' operation - "
                       +:+ "parent project: Internal Server Error")))
  /\ outcome (ProjectService.Update projects moved
                [ok200 (renderProject onServer); fail500])
     = Some (None, None)
  /\ sent (ProjectService.Update projects moved
             [ok200 (renderProject onServer); fail500])
     = [getRequest projects (LocatorUUID "u-1"); parentWrite projects moved].
Proof. vm_compute. auto. Qed.

(** The earlier revision on the same input: the name and the description
    are written, the parent PUT fails, and the result is the same pair of
    [nil]s. *)
Lemma Part000_parent_failure_also_swallowed :
  outcome (Part000.ProjectService.Update earlierProjects moved
             [ok200 "Demo"; ok200 "demo project";
              ok200 (renderProject onServer); fail500])
  = Some (None, None).
Proof. vm_compute. reflexivity. Qed.

(** The earlier revision on an unchanged project: the name and the
    description are written again, and the parameters. *)
Lemma Part000_Update_rewrites_unchanged_fields :
  List.map URL
    (writes (sent (Part000.ProjectService.Update earlierProjects fetched
                     [ok200 "Demo"; ok200 "demo project";
                      ok200 (renderProject onServer);
                      ok200 (renderParameters ownParameters);
                      ok200 (renderProject onServer)])))
  = ["http://tc/app/rest/projects/Demo/name";
     "http://tc/app/rest/projects/Demo/description";
     "http://tc/app/rest/projects/Demo/parameters"].
Proof. vm_compute. reflexivity. Qed.

(** The general lemma on the failing input of C2. *)
Lemma updateProject_swallows_parent_error_witness :
  outcome (ProjectService.updateProject projects (LocatorUUID "u-1") moved false
             [ok200 (renderProject onServer); fail500])
  = Some (None, None).
Proof.
  apply (updateProject_swallows_parent_error projects (LocatorUUID "u-1") moved
           [ok200 (renderProject onServer); fail500] fetched
           (Errorf ("Error '500' when performing 'PUT' operation - "
                    +:+ "parent project: Internal Server Error")));
    vm_compute; reflexivity.
Defined.

(** C7, the failing input: the caller renames the project and moves it; the
    server applies the rename and refuses the parent PUT.  The rename stays
    applied on the server, no further request is sent, and the caller gets
    neither a project nor an error. *)
Theorem Update_rename_stays_after_parent_failure :
  let w := {| held := onServer;
              refused := ["http://tc/app/rest/projects/Demo/parentProject"] |} in
  let run := ProjectService.Update projects renamedAndMoved w in
  Project.Name (held w) = "Demo"
  /\ sent run = [getRequest projects (LocatorUUID "u-1");
                 nameWrite projects (LocatorUUID "u-1") renamedAndMoved;
                 parentWrite projects renamedAndMoved]
  /\ Project.Name (held (world run)) = "Renamed"
  /\ Project.ParentProjectID (held (world run)) = "_Root"
  /\ outcome run = Some (None, None).
Proof. vm_compute. auto. Qed.

(** A later step that fails on a path other than the parent's: the rename
    stays applied and the error of the failing step comes back. *)
Lemma Update_rename_stays_after_parameters_failure :
  let w := {| held := onServer;
              refused := ["http://tc/app/rest/projects/Demo/parameters"] |} in
  let run := ProjectService.Update projects (setName "Renamed" fetched) w in
  Project.Name (held (world run)) = "Renamed"
  /\ outcome run
     = Some (None,
             Some (Errorf ("Error '500' when performing 'PUT' operation - "
                           +:+ "project parameters: Internal Server Error"))).
Proof. vm_compute. auto. Qed.

(** Counterexample to C3 as stated: status 200 with an empty body; the call
    does not succeed. *)
Lemma get_200_need_not_succeed :
  outcome (restHelper.get (T := AgentPool.t)
             (AgentPoolsService.restHelper pools) "id:1" "Agent Pool"
             [ok200 ""])
  = Some (Err (DecodeError "unexpected end of JSON input"))
  /\ ~ (forall resp : Response,
          (exists v : AgentPool.t,
              outcome (restHelper.get (T := AgentPool.t)
                         (AgentPoolsService.restHelper pools) "id:1"
                         "Agent Pool" [Ok resp])
              = Some (Ok v))
          <-> StatusCode resp = 200).
Proof.
  split; [vm_compute; reflexivity|].
  intros Hc.
  destruct (Hc {| StatusCode := 200; RespBody := Bytes "" |}) as [_ Hs].
  destruct (Hs eq_refl) as [v Hv]. vm_compute in Hv. discriminate Hv.
Qed.

(** The status contract on three answers: a pool is fetched with status
    200, a deletion succeeds with status 204, a fetch answered with status
    404 returns the formatted error. *)
Lemma restHelper_status_contract_witness :
  outcome (restHelper.get (T := AgentPool.t)
             (AgentPoolsService.restHelper pools) "id:1" "Agent Pool"
             [ok200 (renderAgentPool defaultPool)])
  = Some (Ok defaultPool)
  /\ outcome (restHelper.delete (B := unit)
                (AgentPoolsService.restHelper pools) "id:1" "Agent Pool"
                [Ok {| StatusCode := 204; RespBody := Bytes "" |}])
     = Some None
  /\ outcome (restHelper.get (T := AgentPool.t)
                (AgentPoolsService.restHelper pools) "id:7" "Agent Pool"
                [Ok {| StatusCode := 404; RespBody := Bytes "no pool" |}])
     = Some (Err (Errorf ("Error '" +:+ Sprintf_d 404 +:+ "' when performing '"
                          +:+ "GET" +:+ "' operation - " +:+ "Agent Pool"
                          +:+ ": " +:+ "no pool"))).
Proof.
  destruct (restHelper_status_contract (B := unit) (W := Script))
    as (_ & Hget & _ & _ & _ & Hdel).
  split; [|split].
  - destruct (Hget AgentPool.t _ (AgentPoolsService.restHelper pools) "id:1"
                "Agent Pool" [ok200 (renderAgentPool defaultPool)]
                {| StatusCode := 200; RespBody := Bytes (renderAgentPool defaultPool) |}
                eq_refl) as (_ & H200 & _).
    eapply eq_trans; [exact (H200 eq_refl) | vm_compute; reflexivity].
  - apply (Hdel (AgentPoolsService.restHelper pools) "id:1" "Agent Pool"
                [Ok {| StatusCode := 204; RespBody := Bytes "" |}]
                {| StatusCode := 204; RespBody := Bytes "" |} eq_refl).
    right. reflexivity.
  - destruct (Hget AgentPool.t _ (AgentPoolsService.restHelper pools) "id:7"
                "Agent Pool"
                [Ok {| StatusCode := 404; RespBody := Bytes "no pool" |}]
                {| StatusCode := 404; RespBody := Bytes "no pool" |}
                eq_refl) as (_ & _ & Herr).
    apply Herr; [simpl; lia | reflexivity].
Defined.



(** A creation that goes through: the description the server did not keep
    is the one write of the reconciliation. *)
Lemma Create_posts_then_reconciles_witness :
  outcome (creationPost projects fresh_project reconcilingScript)
  = Some (Ok createdOnServer)
  /\ outcome (ProjectService.Create projects fresh_project reconcilingScript)
     = Some (Project.set_ID "Demo" fresh_project, (Some fetched, None))
  /\ writes (sent (ProjectService.Create projects fresh_project
                     reconcilingScript))
     = [createRequest projects fresh_project;
        descriptionWrite projects (LocatorID "Demo")
                         (Project.set_ID "Demo" fresh_project)].
Proof.
  assert (HP : outcome (creationPost projects fresh_project reconcilingScript)
               = Some (Ok createdOnServer)) by (vm_compute; reflexivity).
  assert (HO : outcome (ProjectService.Create projects fresh_project
                          reconcilingScript)
               = Some (Project.set_ID "Demo" fresh_project,
                       (Some fetched, None))) by (vm_compute; reflexivity).
  split; [exact HP|]. split; [exact HO|].
  destruct (Create_posts_then_reconciles (B := unit) (W := Script))
    as (_ & _ & Hcreate).
  destruct (Hcreate projects fresh_project reconcilingScript createdOnServer HP)
    as (_ & _ & _ & Hplan).
  destruct (Hplan (Project.set_Parameters (Some ownParameters)
                     undescribedOnServer))
    as (_ & Hall); [vm_compute; reflexivity|].
  destruct (Hall _ _ HO) as (Hw & _). exact Hw.
Defined.

(** [Create] on a project without a name: the POST goes out, and with a
    server that accepts it the creation succeeds. *)
Lemma Create_does_not_validate :
  Project.Name unnamed_project = ""
  /\ sent (ProjectService.Create projects unnamed_project acceptingScript)
     = [createRequest projects unnamed_project;
        getRequest projects (LocatorID "Demo");
        nameWrite projects (LocatorID "Demo")
                  (Project.set_ID "Demo" unnamed_project);
        getRequest projects (LocatorID "Demo")]
  /\ outcome (ProjectService.Create projects unnamed_project acceptingScript)
     = Some (Project.set_ID "Demo" unnamed_project, (Some fetched, None)).
Proof. vm_compute. auto. Qed.

(** [Create] changes the caller's project although it returns an error. *)
Lemma Create_overwrites_ID_witness :
  outcome (creationPost projects fresh_project creationScript)
  = Some (Ok createdOnServer)
  /\ Project.ID fresh_project = ""
  /\ outcome (ProjectService.Create projects fresh_project creationScript)
     = Some (Project.set_ID "Demo" fresh_project,
             (None,
              Some (Errorf ("Error '500' when performing 'GET' operation - "
                            +:+ "project: Internal Server Error")))).
Proof.
  assert (HP : outcome (creationPost projects fresh_project creationScript)
               = Some (Ok createdOnServer)) by (vm_compute; reflexivity).
  split; [exact HP|]. split; [reflexivity|].
  destruct (Create_overwrites_ID projects fresh_project creationScript
              createdOnServer HP) as (_ & _ & Herr).
  apply Herr. vm_compute. reflexivity.
Defined.

(** The server reports an inherited parameter; the caller does not see
    it. *)
Lemma Get_strips_inherited_witness :
  outcome (ProjectService.GetByID projects "Demo"
             [ok200 (renderProject onServer)])
  = Some (Some fetched, None)
  /\ Project.Parameters onServer = Some serverParameters
  /\ In region (Parameters.Items serverParameters)
  /\ exists locator out ps,
      outcome (restHelper.getWithFields (T := Project.t unit)
                 (ProjectService.restHelper projects) (Locator.String locator)
                 (ProjectService.fields projects) "project"
                 [ok200 (renderProject onServer)]) = Some (Ok out)
      /\ Project.Parameters out = Some ps
      /\ fetched = Project.set_Parameters (Some (Parameters.NonInherited ps)) out
      /\ Project.Parameters fetched = Some (Parameters.NonInherited ps)
      /\ Parameters.Items (Parameters.NonInherited ps)
         = List.filter (fun v => negb (Param.Inherited v)) (Parameters.Items ps)
      /\ (forall v, In v (Parameters.Items (Parameters.NonInherited ps)) <->
                    In v (Parameters.Items ps) /\ Param.Inherited v = false).
Proof.
  assert (HG : outcome (ProjectService.GetByID projects "Demo"
                          [ok200 (renderProject onServer)])
               = Some (Some fetched, None)) by (vm_compute; reflexivity).
  split; [exact HG|]. split; [reflexivity|]. split; [simpl; auto|].
  apply (Get_strips_inherited (ProjectService.GetByID projects "Demo") projects
           [ok200 (renderProject onServer)] fetched); [|exact HG].
  right. left. exists "Demo". reflexivity.
Defined.



(** The encoded feature, and a decoded feature without [disabled]. *)
Lemma FeatureGolang_examples :
  (fst <$> FeatureGolang.MarshalJSON golang golangStore)
  = Some (renderFeature
            {| buildFeatureJSON.ID := "BUILD_EXT_1";
               buildFeatureJSON.Disabled := Some false;
               buildFeatureJSON.Properties :=
                 Some {| Properties.Count := 2; Properties.Href := "";
                         Properties.Items := [NewProperty "go.tool" "vet";
                                              NewProperty "test.format" "json"] |};
               buildFeatureJSON.Inherited := Some false;
               buildFeatureJSON.Type_ := "golang" |}, None)
  /\ (fun r => FeatureGolang.disabled (snd (fst r)))
       <$> FeatureGolang.UnmarshalJSON (FeatureGolang.SetDisabled golang true)
             (renderFeature reportedFeature) golangStore
     = Some false.
Proof. vm_compute. auto. Qed.

End Examples.

(* ===================================================================== *)
(** * More of the properties at work *)
(* ===================================================================== *)

Module MoreExamples.
Import Demo Demo2.

(** No server listens: the transport error comes back as it is. *)
Lemma restHelper_transport_error_unmodified_witness :
  fst (Do (slingRequest (B := unit)
             (restHelper.sling (AgentPoolsService.restHelper pools)) GET "id:1"
             (QueryStruct {| Fields := "" |}) [] NoBody) ([] : Script))
  = Err (TransportError "connection refused")
  /\ outcome (restHelper.getWithFields (T := AgentPool.t)
                (AgentPoolsService.restHelper pools) "id:1" {| Fields := "" |}
                "Agent Pool" ([] : Script))
     = Some (Err (TransportError "connection refused")).
Proof.
  split; [reflexivity|].
  destruct (restHelper_transport_error_unmodified (B := unit) (W := Script)
              (AgentPoolsService.restHelper pools)
              (TransportError "connection refused")) as (Hget & _).
  apply Hget. reflexivity.
Defined.

(** The connection breaks while the body of a 200 is read: the text PUT
    fails with the read error. *)
Lemma restHelper_unreadable_body_witness :
  outcome (restHelper.putTextPlain (B := unit)
             (ProjectService.restHelper projects) "Demo/name" "Renamed"
             "project name"
             [Ok {| StatusCode := 200;
                    RespBody := Broken (ReadError "unexpected EOF") |}])
  = Some ("", Some (ReadError "unexpected EOF")).
Proof.
  destruct (restHelper_unreadable_body (B := unit) (W := Script)
              (ProjectService.restHelper projects) 200
              (ReadError "unexpected EOF"))
    as (_ & _ & _ & _ & _ & _ & Htext & _).
  apply Htext. reflexivity.
Defined.

(** A reader that measures the body. *)
Lemma custom_reader_contract_witness :
  outcome (restHelper.getCustom (B := unit)
             (AgentPoolsService.restHelper pools) "id:1" "Agent Pool"
             (fun body => Ok (String.length body)) [ok200 "hello"])
  = Some (Ok 5%nat).
Proof.
  destruct (custom_reader_contract (B := unit) (W := Script)
              (AgentPoolsService.restHelper pools)) as (Hget & _).
  apply (Hget nat "id:1" "Agent Pool" (fun body => Ok (String.length body))
              [ok200 "hello"] {| StatusCode := 200; RespBody := Bytes "hello" |}
              5%nat eq_refl).
  split; [reflexivity|]. exists "hello". split; reflexivity.
Defined.

(** A fetch answered with status 500: one GET, an error and no project. *)
Lemma Get_reads_once_witness :
  sent (ProjectService.Get projects (LocatorID "Demo") [fail500])
  = [getRequest projects (LocatorID "Demo")]
  /\ ((exists p, outcome (ProjectService.Get projects (LocatorID "Demo")
                            [fail500]) = Some (Some p, None))
      \/ (exists e, outcome (ProjectService.Get projects (LocatorID "Demo")
                               [fail500]) = Some (None, Some e))).
Proof.
  destruct (Get_reads_once projects (LocatorID "Demo") [fail500])
    as (Hs & _ & _ & _ & Hr).
  split; [exact Hs|].
  destruct (Hr _ eq_refl) as [[p Hp]|[e He]].
  - left. exists p. vm_compute. vm_compute in Hp. exact (f_equal Some Hp).
  - right. exists e. vm_compute. vm_compute in He. exact (f_equal Some He).
Defined.

(** A deletion answered with status 204. *)
Lemma Delete_sends_one_delete_witness :
  responds ([Ok {| StatusCode := 204; RespBody := Bytes "" |}] : Script)
           (slingRequest (B := unit) (ProjectService.sling projects) DELETE
                         (Locator.String (LocatorID "Demo")) [] [] NoBody)
           {| StatusCode := 204; RespBody := Bytes "" |}
  /\ outcome (ProjectService.Delete projects "Demo"
                [Ok {| StatusCode := 204; RespBody := Bytes "" |}])
     = Some None.
Proof.
  assert (Hr : responds ([Ok {| StatusCode := 204; RespBody := Bytes "" |}] : Script)
                 (slingRequest (B := unit) (ProjectService.sling projects) DELETE
                               (Locator.String (LocatorID "Demo")) [] [] NoBody)
                 {| StatusCode := 204; RespBody := Bytes "" |})
    by reflexivity.
  split; [exact Hr|].
  destruct (Delete_sends_one_delete projects "Demo" _ _ Hr) as (_ & Hok & _).
  apply Hok. right. reflexivity.
Defined.

(** The fetch of an update fails: the error comes back, nothing is
    written. *)
Lemma Update_fetch_failure_witness :
  outcome (ProjectService.Get projects (LocatorUUID (Project.UUID fetched))
             [fail500])
  = Some (None,
          Some (Errorf ("Error '500' when performing 'GET' operation - "
                        +:+ "project: Internal Server Error")))
  /\ sent (ProjectService.Update projects fetched [fail500])
     = [getRequest projects (LocatorUUID (Project.UUID fetched))].
Proof.
  assert (HG : outcome (ProjectService.Get projects
                          (LocatorUUID (Project.UUID fetched)) [fail500])
               = Some (None,
                       Some (Errorf ("Error '500' when performing 'GET' operation - "
                                     +:+ "project: Internal Server Error"))))
    by (vm_compute; reflexivity).
  split; [exact HG|].
  destruct (Update_fetch_failure projects fetched [fail500] _ HG) as (_ & Hs & _).
  exact Hs.
Defined.


(** The creation POST is answered with status 500. *)
Lemma Create_stops_when_post_fails_witness :
  responds ([fail500] : Script) (createRequest projects fresh_project)
           {| StatusCode := 500; RespBody := Bytes "Internal Server Error" |}
  /\ outcome (ProjectService.Create projects fresh_project [fail500])
     = Some (fresh_project,
             (None,
              Some (Errorf ("Error '" +:+ Sprintf_d 500
                            +:+ "' when performing 'POST' operation - project: "
                            +:+ "Internal Server Error")))).
Proof.
  split; [reflexivity|].
  destruct (Create_stops_when_post_fails projects fresh_project [fail500])
    as (_ & Hstatus).
  apply (Hstatus {| StatusCode := 500;
                    RespBody := Bytes "Internal Server Error" |}
                 "Internal Server Error");
    [reflexivity | reflexivity | simpl; lia | simpl; lia].
Defined.

(** The unchanged update returns the project of its last fetch. *)
Lemma Update_returns_the_refreshed_project_witness :
  outcome (ProjectService.Update projects fetched unchangedScript)
  = Some (Some fetched, None)
  /\ exists w',
      outcome (ProjectService.Get projects (LocatorUUID (Project.UUID fetched))
                 w') = Some (Some fetched, None)
      /\ world (ProjectService.Update projects fetched unchangedScript)
         = world (ProjectService.Get projects
                    (LocatorUUID (Project.UUID fetched)) w')
      /\ exists before,
          sent (ProjectService.Update projects fetched unchangedScript)
          = before ++ [getRequest projects (LocatorUUID (Project.UUID fetched))].
Proof.
  assert (HU : outcome (ProjectService.Update projects fetched unchangedScript)
               = Some (Some fetched, None)) by (vm_compute; reflexivity).
  split; [exact HU|].
  exact (Update_returns_the_refreshed_project projects fetched unchangedScript
           fetched HU).
Defined.

(** A rename refused with status 500. *)
Lemma Update_name_failure_stops_witness :
  let project := setName "Renamed" fetched in
  let script : Script := [ok200 (renderProject onServer); fail500] in
  outcome (ProjectService.Update projects project script)
  = Some (None,
          Some (Errorf ("Error '" +:+ Sprintf_d 500
                        +:+ "' when performing 'PUT' operation - project name: "
                        +:+ "Internal Server Error")))
  /\ sent (ProjectService.Update projects project script)
     = [getRequest projects (LocatorUUID "u-1");
        nameWrite projects (LocatorUUID "u-1") project].
Proof.
  intros project script.
  apply (Update_name_failure_stops projects project script fetched
           {| StatusCode := 500; RespBody := Bytes "Internal Server Error" |}
           "Internal Server Error").
  - vm_compute. reflexivity.
  - vm_compute. discriminate.
  - vm_compute. reflexivity.
  - reflexivity.
  - simpl. lia.
  - simpl. lia.
Defined.

(** A project made under the root. *)
Lemma parent_reference_agrees_witness :
  exists p : Project.t unit,
    NewProject "Demo" "demo project" "_Root" = (Some p, None)
    /\ parentAgrees p
    /\ Project.ParentProject p = Some rootReference.
Proof.
  destruct (parent_reference_agrees (B := unit)) as (Hnew & _).
  eexists. split; [vm_compute; reflexivity|].
  split; [|reflexivity].
  apply (Hnew "Demo" "demo project" "_Root"). vm_compute. reflexivity.
Defined.

(** The fetched project moved under another parent: the second request is
    the parent PUT. *)
Lemma SetParentProject_then_Update_writes_parent_witness :
  exists rest,
    sent (ProjectService.Update projects (SetParentProject fetched "Other")
            [ok200 (renderProject onServer); fail500])
    = getRequest projects (LocatorUUID "u-1")
      :: slingRequest (restHelper.sling (ProjectService.restHelper projects))
           PUT ("Demo" +:+ "/parentProject") []
           [("Content-Type", "application/json")]
           (JSONProjectReference (Some otherReference))
      :: rest.
Proof.
  apply (SetParentProject_then_Update_writes_parent projects fetched "Other"
           [ok200 (renderProject onServer); fail500] fetched).
  - vm_compute. reflexivity.
  - reflexivity.
  - reflexivity.
  - reflexivity.
  - vm_compute. discriminate.
Defined.

(** The earlier revision fetches the demo project by its identifier. *)
Lemma Part000_Get_strips_inherited_witness :
  outcome (Part000.ProjectService.GetByID earlierProjects "Demo"
             [ok200 (renderProject onServer)])
  = Some (Some fetched, None)
  /\ sent (Part000.ProjectService.GetByID earlierProjects "Demo"
             [ok200 (renderProject onServer)])
     = [slingRequest (restHelper.sling
                        (Part000.ProjectService.restHelper earlierProjects))
                     GET (Locator.String (LocatorID "Demo")) [] [] NoBody].
Proof.
  assert (HG : outcome (Part000.ProjectService.GetByID earlierProjects "Demo"
                          [ok200 (renderProject onServer)])
               = Some (Some fetched, None)) by (vm_compute; reflexivity).
  split; [exact HG|].
  destruct (Part000_Get_strips_inherited earlierProjects
              (Part000.ProjectService.GetByID earlierProjects "Demo")
              (LocatorID "Demo") [ok200 (renderProject onServer)] fetched)
    as (Hs & _); [|exact HG|exact Hs].
  left. exists "Demo". split; reflexivity.
Defined.

(** The earlier revision on the unchanged project: the name goes first,
    then the description. *)
Lemma Part000_updateProject_writes_unconditionally_witness :
  let script : Script := [ok200 "Demo"; ok200 "demo project"; fail500] in
  outcome (restHelper.putTextPlain (B := unit)
             (Part000.ProjectService.restHelper earlierProjects)
             (Project.ID fetched +:+ "/name") (Project.Name fetched)
             "project name" script)
  = Some ("Demo", None)
  /\ exists rest,
      List.map URL (sent (Part000.ProjectService.updateProject earlierProjects
                            fetched false script))
      = "http://tc/app/rest/projects/Demo/name"
        :: "http://tc/app/rest/projects/Demo/description" :: rest.
Proof.
  intros script.
  assert (HN : outcome (restHelper.putTextPlain (B := unit)
                          (Part000.ProjectService.restHelper earlierProjects)
                          (Project.ID fetched +:+ "/name") (Project.Name fetched)
                          "project name" script)
               = Some ("Demo", None)) by (vm_compute; reflexivity).
  split; [exact HN|].
  destruct (Part000_updateProject_writes_unconditionally earlierProjects fetched
              false script) as (_ & Hboth & _).
  destruct (Hboth "Demo" HN) as (rest & Hs).
  exists (List.map URL rest). rewrite Hs. reflexivity.
Defined.

(** The earlier revision creates the demo project: the reference of the
    answer gives the identifier. *)
Lemma Part000_Create_overwrites_ID_witness :
  let script : Script := [ok200 (renderReference createdReference); fail500] in
  outcome (@restHelper.post unit Script playback ProjectReference.t
             decodeCreatedReference
             (Part000.ProjectService.restHelper earlierProjects) ""
             (JSONProject fresh_project) "project" script)
  = Some (Ok createdReference)
  /\ forall after res,
      outcome (@Part000.ProjectService.Create unit Script playback
                 decodeProject decodeCreatedReference decodeParameters
                 earlierProjects fresh_project script)
      = Some (after, res) ->
      after = Project.set_ID "Demo" fresh_project.
Proof.
  intros script.
  assert (HP : outcome (@restHelper.post unit Script playback ProjectReference.t
                          decodeCreatedReference
                          (Part000.ProjectService.restHelper earlierProjects) ""
                          (JSONProject fresh_project) "project" script)
               = Some (Ok createdReference)) by (vm_compute; reflexivity).
  split; [exact HP|].
  destruct (@Part000_Create_overwrites_ID unit Script playback decodeProject
              decodeCreatedReference decodeParameters earlierProjects
              fresh_project script createdReference HP) as (Hafter & _).
  exact Hafter.
Defined.

(** The default pool is fetched. *)
Lemma AgentPools_one_request_one_result_witness :
  responds ([ok200 (renderAgentPool defaultPool)] : Script)
           (slingRequest (B := unit)
              (restHelper.sling (AgentPoolsService.restHelper pools)) GET
              (Locator.String (LocatorIDInt 1)) [] [] NoBody)
           {| StatusCode := 200;
              RespBody := Bytes (renderAgentPool defaultPool) |}
  /\ outcome (@AgentPoolsService.Get unit Script playback decodeAgentPool
                pools 1 [ok200 (renderAgentPool defaultPool)])
     = Some (Some defaultPool, None).
Proof.
  split; [reflexivity|].
  destruct (@AgentPools_one_request_one_result unit Script playback
              decodeAgentPool decodePoolList pools) as (Hget & _).
  destruct (Hget 1 [ok200 (renderAgentPool defaultPool)]) as (_ & Hiff & _).
  apply (Hiff {| StatusCode := 200;
                 RespBody := Bytes (renderAgentPool defaultPool) |}
              defaultPool eq_refl).
  split; [reflexivity | vm_compute; reflexivity].
Defined.

(** The demo feature decodes a report: its build type and its old
    collection stay. *)
Lemma UnmarshalJSON_frame_witness :
  exists f' h',
    FeatureGolang.UnmarshalJSON golang (renderFeature reportedFeature)
                                golangStore = Some (None, f', h')
    /\ FeatureGolang.buildTypeID f' = "Demo_Build"
    /\ h' !! 1%positive = Some (NewProperties [NewProperty "go.tool" "vet"]).
Proof.
  destruct (FeatureGolang.UnmarshalJSON golang (renderFeature reportedFeature)
                                        golangStore)
    as [[[err f'] h']|] eqn:E; [|vm_compute in E; discriminate E].
  assert (Herr : err = None)
    by (vm_compute in E; injection E as <- _ _; reflexivity).
  subst err. exists f', h'. split; [reflexivity|].
  destruct (UnmarshalJSON_frame golang (renderFeature reportedFeature)
              golangStore) as (_ & Hframe).
  destruct (Hframe None f' h' E) as (Hb & Hkeep & _).
  split; [exact Hb|]. apply Hkeep. vm_compute. reflexivity.
Defined.

(** The demo feature encoded, and decoded into another feature. *)
Lemma MarshalJSON_then_UnmarshalJSON_witness :
  exists h1 g' h2,
    FeatureGolang.MarshalJSON golang golangStore
    = Some ((renderFeature golangEncoded, None), h1)
    /\ @FeatureGolang.UnmarshalJSON decodeGolang otherGolang
         (renderFeature golangEncoded) h1 = Some (None, g', h2)
    /\ FeatureGolang.id g' = "BUILD_EXT_1"
    /\ FeatureGolang.disabled g' = false
    /\ FeatureGolang.buildTypeID g' = "Other_Build".
Proof.
  destruct (FeatureGolang.MarshalJSON_out golang golangStore)
    as [[out h1]|] eqn:E; [|vm_compute in E; discriminate E].
  assert (Hout : out = golangEncoded)
    by (vm_compute in E; injection E as <- _; reflexivity).
  subst out.
  destruct (@MarshalJSON_then_UnmarshalJSON replaceOrAppend encodeFeature
              decodeGolang
              golang otherGolang golangStore h1 (renderFeature golangEncoded)
              golangEncoded E eq_refl)
    as (Hm & g' & h2 & l & l' & ps0 & Hu & Hid & Hdis & Hbt & _).
  { vm_compute. reflexivity. }
  exists h1, g', h2. split; [exact Hm|]. split; [exact Hu|].
  rewrite Hid, Hdis, Hbt. split; [reflexivity|]. split; reflexivity.
Defined.

End MoreExamples.
